(** * ERC-20 token chaincode: shallow embedding and verification

    The repository holds several variants of one Hyperledger Fabric
    chaincode.  Two families are embedded here:

    - [Peer] / [SC]: one ledger key per account, amounts held in Go [int]
      and parsed with [strconv.Atoi]
      (src/token-erc-20_peer.go, src/token-erc-20-sc.go);
    - [MapToken]: one JSON record under the key "token" holding a
      [map[string]uint64] of balances (src/go/token_erc_20.go).

    src/token-erc-20.go is a shorter copy of the peer file, with the same
    Mint, Burn and Transfer; src/unnamed/part_000 is an earlier copy of the
    map-based file, keyed by the raw identity bytes, whose
    ClientAccountBalance fails for an unknown caller instead of writing;
    src/token_erc_20.go holds commented-out code only.

    The ledger host (the Fabric shim) is outside the repository.  It is
    modelled as a key-value store whose [GetState], [SetEvent] and
    [GetCreator] always return a nil error, so the [if err != nil] branches
    that follow those calls are left out of the embedding.  [PutState] may
    turn a key down (the Fabric shim does so for the empty key); which keys
    is a field of the stub.  A write of an empty value deletes the key.  An
    operation returns the stub as the chaincode left it: the writes issued
    before a failure stay visible in it; [committed] gives what the host
    keeps, which is nothing of an invocation that did not succeed. *)

From Stdlib Require Import ZArith Lia Ascii String List.
From Stdlib Require Import Decimal DecimalString DecimalPos DecimalZ.
From stdpp Require Import gmap strings.

Local Open Scope string_scope.
Local Open Scope Z_scope.

(** ** Go's [strconv] on 64-bit platforms *)

Module strconv.

Inductive NumError := ErrSyntax | ErrRange.

(** Go [int] is 64 bits wide on the platforms Fabric runs on; [+=] and [-=]
    wrap around silently. *)
Definition wrap64 (z : Z) : Z := (z + 2 ^ 63) mod 2 ^ 64 - 2 ^ 63.

(** Go [uint64] arithmetic. *)
Definition wrapU64 (z : Z) : Z := z mod 2 ^ 64.

(** ['0' <= c && c <= '9': d = c - '0'] *)
Definition digitVal (c : ascii) : option Z :=
  let b := Z.of_N (N_of_ascii c) in
  if (48 <=? b) && (b <=? 57) then Some (b - 48) else None.

(** cutoff is the smallest number such that [cutoff * 10 > maxUint64]. *)
Definition cutoff10 : Z := (2 ^ 64 - 1) / 10 + 1.

(** The digit loop of [ParseUint(s, 10, bitSize)], with [maxVal = 2^bitSize - 1]:
    it returns at the first offending byte.  Go tests [n1 < n || n1 > maxVal]
    on the wrapped sum; on unbounded integers [n1 < n] reads [2^64 <= n1]. *)
Fixpoint parseUintLoop (maxVal : Z) (s : string) (n : Z) : Z * option NumError :=
  match s with
  | EmptyString => (n, None)
  | String c s' =>
      match digitVal c with
      | None => (0, Some ErrSyntax)
      | Some d =>
          if cutoff10 <=? n then (maxVal, Some ErrRange)
          else
            let n1 := n * 10 + d in
            if (2 ^ 64 <=? n1) || (maxVal <? n1) then (maxVal, Some ErrRange)
            else parseUintLoop maxVal s' n1
      end
  end.

Definition ParseUint (s : string) (bitSize : Z) : Z * option NumError :=
  match s with
  | EmptyString => (0, Some ErrSyntax)
  | _ => parseUintLoop (2 ^ bitSize - 1) s 0
  end.

(** [ParseInt(s, 10, 0)], which [Atoi] falls back to; the fast path of
    [Atoi] for short strings computes the same result. *)
Definition Atoi (s : string) : Z * option NumError :=
  match s with
  | EmptyString => (0, Some ErrSyntax)
  | String c r =>
      let neg := Ascii.eqb c "-" in
      let s1 := if Ascii.eqb c "+" || neg then r else s in
      match ParseUint s1 64 with
      | (_, Some ErrSyntax) => (0, Some ErrSyntax)
      | (un, _) =>
          if negb neg && (2 ^ 63 <=? un) then (2 ^ 63 - 1, Some ErrRange)
          else if neg && (2 ^ 63 <? un) then (- 2 ^ 63, Some ErrRange)
          else (if neg then - un else un, None)
      end
  end.

(** [Itoa(i)] and [fmt.Sprintf("%d", i)]: the shortest decimal text. *)
Definition Itoa (z : Z) : string := NilZero.string_of_int (Z.to_int z).

End strconv.

Import strconv.

(** ** Go's [unicode/utf8] *)

Module utf8.

Definition between (lo hi : N) (c : ascii) : bool :=
  (lo <=? N_of_ascii c)%N && (N_of_ascii c <=? hi)%N.

(** The width in bytes of the well-formed encoding at the head of [s], and
    0 when there is none: the tables [first] and [acceptRanges] that
    [DecodeRuneInString] goes by.  A lead byte C2..DF takes one
    continuation byte 80..BF; E0..EF take two, the first of them from A0
    after E0 and up to 9F after ED; F0..F4 take three, the first of them
    from 90 after F0 and up to 8F after F4. *)
Definition runeWidth (s : string) : nat :=
  match s with
  | EmptyString => 0%nat
  | String c0 rest =>
      if between 0 127 c0 then 1%nat
      else if between 194 223 c0 then
        match rest with
        | String c1 _ => if between 128 191 c1 then 2%nat else 0%nat
        | _ => 0%nat
        end
      else if between 224 239 c0 then
        match rest with
        | String c1 (String c2 _) =>
            let lo := if between 224 224 c0 then 160%N else 128%N in
            let hi := if between 237 237 c0 then 159%N else 191%N in
            if between lo hi c1 && between 128 191 c2 then 3%nat else 0%nat
        | _ => 0%nat
        end
      else if between 240 244 c0 then
        match rest with
        | String c1 (String c2 (String c3 _)) =>
            let lo := if between 240 240 c0 then 144%N else 128%N in
            let hi := if between 244 244 c0 then 143%N else 191%N in
            if between lo hi c1 && between 128 191 c2 && between 128 191 c3
            then 4%nat else 0%nat
        | _ => 0%nat
        end
      else 0%nat
  end.

(** [skip] counts the bytes left of the encoding under way. *)
Fixpoint validFrom (skip : nat) (s : string) : bool :=
  match s with
  | EmptyString => true
  | String _ rest =>
      match skip with
      | S n => validFrom n rest
      | O =>
          match runeWidth s with
          | O => false
          | S n => validFrom n rest
          end
      end
  end.

(** [utf8.ValidString(s)] *)
Definition ValidString (s : string) : bool := validFrom 0 s.

End utf8.

(** ** The ledger stub and the chaincode response *)

(** [event] provides an organized struct for emitting events.  The payload
    handed to [SetEvent] is [json.Marshal] of this struct, which cannot fail
    on it; the model keeps the struct itself. *)
Record event := { From : string; To : string; Value : Z }.

(** The error value of a [PutState] that was turned down. *)
Inductive HostError := KeyRefused (key : string).

(** What the chaincode sees of the host: the world state read by
    [GetState], the writes issued through [PutState] (newest first), the
    events set, the identity bytes returned by [GetCreator], and the keys
    the host's [PutState] turns down. *)
Record Stub := {
  State : gmap string string;
  Writes : list (string * string);
  Events : list (string * event);
  Creator : string;
  Refuses : string -> bool
}.

(** [shim.Success(payload)], [shim.Error(msg)] with a message of the
    chaincode's own, and [shim.Error(err.Error())] passing a host error on;
    a nil payload is [None]. *)
Inductive Response :=
| Success (payload : option string)
| Error (msg : string)
| ErrorOf (err : HostError).

Definition GetState (APIstub : Stub) (key : string) : option string :=
  State APIstub !! key.

(** What the world state holds once a write is applied: the host takes a
    write of an empty value for the deletion of the key. *)
Definition applyWrite (state : gmap string string) (key value : string)
  : gmap string string :=
  if String.eqb value "" then delete key state else <[key := value]> state.

(** The stub once a write has been accepted.  No operation reads a key
    after writing it, so showing the write to [GetState] at once cannot be
    told from showing it at commit. *)
Definition recordWrite (APIstub : Stub) (key value : string) : Stub :=
  {| State := applyWrite (State APIstub) key value;
     Writes := (key, value) :: Writes APIstub;
     Events := Events APIstub;
     Creator := Creator APIstub;
     Refuses := Refuses APIstub |}.

Definition PutState (APIstub : Stub) (key value : string) : Stub * option HostError :=
  if Refuses APIstub key then (APIstub, Some (KeyRefused key))
  else (recordWrite APIstub key value, None).

Definition SetEvent (APIstub : Stub) (name : string) (payload : event) : Stub :=
  {| State := State APIstub;
     Writes := Writes APIstub;
     Events := (name, payload) :: Events APIstub;
     Creator := Creator APIstub;
     Refuses := Refuses APIstub |}.

Definition GetCreator (APIstub : Stub) : string := Creator APIstub.

(** ** src/token-erc-20_peer.go *)

Module Peer.

Definition nameKey := "name".
Definition symbolKey := "symbol".
Definition decimalsKey := "decimals".
Definition totalSupplyKey := "totalSupply".
Definition allowancePrefix := "allowance".

(** Mint creates new tokens and adds them to minter's account balance. *)
Definition Mint (APIstub : Stub) (args : list string) : Response * Stub :=
  match args with
  | [minter; a] =>
      match Atoi a with
      | (_, Some _) => (Error "Invalid amount. Expecting a numeric string", APIstub)
      | (amount, None) =>
          let balance :=
            match GetState APIstub minter with
            | None => 0
            | Some balanceBytes => fst (Atoi balanceBytes)
            end in
          let balance := wrap64 (balance + amount) in
          let (APIstub, err) := PutState APIstub minter (Itoa balance) in
          match err with
          | Some err => (ErrorOf err, APIstub)
          | None =>
              let APIstub := SetEvent APIstub "Transfer"
                               {| From := ""; To := minter; Value := amount |} in
              (Success None, APIstub)
          end
      end
  | _ => (Error "Incorrect number of arguments. Expecting 2", APIstub)
  end.

(** Burn redeems tokens from the minter's account balance. *)
Definition Burn (APIstub : Stub) (args : list string) : Response * Stub :=
  match args with
  | [minter; a] =>
      match Atoi a with
      | (_, Some _) => (Error "Invalid amount. Expecting a numeric string", APIstub)
      | (amount, None) =>
          match GetState APIstub minter with
          | None => (Error "Account not found", APIstub)
          | Some balanceBytes =>
              let balance := fst (Atoi balanceBytes) in
              if balance <? amount then (Error "Insufficient balance", APIstub)
              else
                let balance := wrap64 (balance - amount) in
                let (APIstub, err) := PutState APIstub minter (Itoa balance) in
                match err with
                | Some err => (ErrorOf err, APIstub)
                | None =>
                    let APIstub := SetEvent APIstub "Transfer"
                                     {| From := minter; To := ""; Value := amount |} in
                    (Success None, APIstub)
                end
          end
      end
  | _ => (Error "Incorrect number of arguments. Expecting 2", APIstub)
  end.

(** Transfer transfers tokens from client account to recipient account. *)
Definition Transfer (APIstub : Stub) (args : list string) : Response * Stub :=
  match args with
  | [from; to; a] =>
      match Atoi a with
      | (_, Some _) => (Error "Invalid amount. Expecting a numeric string", APIstub)
      | (amount, None) =>
          match GetState APIstub from with
          | None => (Error "Sender account not found", APIstub)
          | Some fromBalanceBytes =>
              let fromBalance := fst (Atoi fromBalanceBytes) in
              let toBalance :=
                match GetState APIstub to with
                | None => 0
                | Some toBalanceBytes => fst (Atoi toBalanceBytes)
                end in
              if fromBalance <? amount then (Error "Insufficient balance", APIstub)
              else
                let fromBalance := wrap64 (fromBalance - amount) in
                let toBalance := wrap64 (toBalance + amount) in
                let (APIstub, err) := PutState APIstub from (Itoa fromBalance) in
                match err with
                | Some err => (ErrorOf err, APIstub)
                | None =>
                    let (APIstub, err) := PutState APIstub to (Itoa toBalance) in
                    match err with
                    | Some err => (ErrorOf err, APIstub)
                    | None =>
                        let APIstub := SetEvent APIstub "Transfer"
                                         {| From := from; To := to; Value := amount |} in
                        (Success None, APIstub)
                    end
                end
          end
      end
  | _ => (Error "Incorrect number of arguments. Expecting 3", APIstub)
  end.

(** BalanceOf returns the balance of the given account. *)
Definition BalanceOf (APIstub : Stub) (args : list string) : Response * Stub :=
  match args with
  | [account] =>
      match GetState APIstub account with
      | None => (Error "Account not found", APIstub)
      | Some balanceBytes => (Success (Some balanceBytes), APIstub)
      end
  | _ => (Error "Incorrect number of arguments. Expecting 1", APIstub)
  end.

Definition ClientAccountBalance (APIstub : Stub) (args : list string) : Response * Stub :=
  let clientID := GetCreator APIstub in
  BalanceOf APIstub [clientID].

Definition ClientAccountID (APIstub : Stub) (args : list string) : Response * Stub :=
  let clientID := GetCreator APIstub in
  (Success (Some clientID), APIstub).

Definition TotalSupply (APIstub : Stub) (args : list string) : Response * Stub :=
  match GetState APIstub totalSupplyKey with
  | None => (Error "Total supply not set", APIstub)
  | Some totalSupplyBytes => (Success (Some totalSupplyBytes), APIstub)
  end.

(** Approve allows [spender] to withdraw from [owner]'s account; calling it
    again overwrites the current allowance. *)
Definition Approve (APIstub : Stub) (args : list string) : Response * Stub :=
  match args with
  | [owner; spender; a] =>
      match Atoi a with
      | (_, Some _) => (Error "Invalid amount. Expecting a numeric string", APIstub)
      | (amount, None) =>
          let allowanceKey := allowancePrefix ++ owner ++ spender in
          let (APIstub, err) := PutState APIstub allowanceKey (Itoa amount) in
          match err with
          | Some _ => (Error "Failed to set allowance", APIstub)
          | None => (Success None, APIstub)
          end
      end
  | _ => (Error "Incorrect number of arguments. Expecting 3", APIstub)
  end.

(** Allowance returns the amount which [spender] is still allowed to
    withdraw from [owner]. *)
Definition Allowance (APIstub : Stub) (args : list string) : Response * Stub :=
  match args with
  | [owner; spender] =>
      let allowanceKey := allowancePrefix ++ owner ++ spender in
      match GetState APIstub allowanceKey with
      | None => (Error "Allowance not found", APIstub)
      | Some allowanceBytes => (Success (Some allowanceBytes), APIstub)
      end
  | _ => (Error "Incorrect number of arguments. Expecting 2", APIstub)
  end.

(** TransferFrom transfers [amount] tokens from [owner] to [to] using the
    allowance mechanism. *)
Definition TransferFrom (APIstub : Stub) (args : list string) : Response * Stub :=
  match args with
  | [owner; spender; to; a] =>
      match Atoi a with
      | (_, Some _) => (Error "Invalid amount. Expecting a numeric string", APIstub)
      | (amount, None) =>
          let allowanceKey := allowancePrefix ++ owner ++ spender in
          match GetState APIstub allowanceKey with
          | None => (Error "Allowance not found", APIstub)
          | Some allowanceBytes =>
              let allowance := fst (Atoi allowanceBytes) in
              if allowance <? amount then (Error "Allowance exceeded", APIstub)
              else
                match GetState APIstub owner with
                | None => (Error "Owner account not found", APIstub)
                | Some fromBalanceBytes =>
                    let fromBalance := fst (Atoi fromBalanceBytes) in
                    let toBalance :=
                      match GetState APIstub to with
                      | None => 0
                      | Some toBalanceBytes => fst (Atoi toBalanceBytes)
                      end in
                    if fromBalance <? amount then (Error "Insufficient balance", APIstub)
                    else
                      let fromBalance := wrap64 (fromBalance - amount) in
                      let toBalance := wrap64 (toBalance + amount) in
                      let (APIstub, err) := PutState APIstub owner (Itoa fromBalance) in
                      match err with
                      | Some err => (ErrorOf err, APIstub)
                      | None =>
                          let (APIstub, err) := PutState APIstub to (Itoa toBalance) in
                          match err with
                          | Some err => (ErrorOf err, APIstub)
                          | None =>
                              let allowance := wrap64 (allowance - amount) in
                              let (APIstub, err) :=
                                PutState APIstub allowanceKey (Itoa allowance) in
                              match err with
                              | Some _ => (Error "Failed to update allowance", APIstub)
                              | None =>
                                  let APIstub :=
                                    SetEvent APIstub "Transfer"
                                      {| From := owner; To := to; Value := amount |} in
                                  (Success None, APIstub)
                              end
                          end
                      end
                end
          end
      end
  | _ => (Error "Incorrect number of arguments. Expecting 4", APIstub)
  end.

Definition Name (APIstub : Stub) (args : list string) : Response * Stub :=
  match GetState APIstub nameKey with
  | None => (Error "Token name not set", APIstub)
  | Some nameBytes => (Success (Some nameBytes), APIstub)
  end.

Definition Symbol (APIstub : Stub) (args : list string) : Response * Stub :=
  match GetState APIstub symbolKey with
  | None => (Error "Token symbol not set", APIstub)
  | Some symbolBytes => (Success (Some symbolBytes), APIstub)
  end.

(** Initialize initializes the token's state (name, symbol, decimals,
    totalSupply). *)
Definition Initialize (APIstub : Stub) (args : list string) : Response * Stub :=
  match args with
  | [name; symbol; d; t] =>
      match Atoi d with
      | (_, Some _) => (Error "Invalid decimals. Expecting a numeric string", APIstub)
      | (decimals, None) =>
          match Atoi t with
          | (_, Some _) => (Error "Invalid total supply. Expecting a numeric string", APIstub)
          | (totalSupply, None) =>
              let (APIstub, err) := PutState APIstub nameKey name in
              match err with
              | Some _ => (Error "Failed to set token name", APIstub)
              | None =>
                  let (APIstub, err) := PutState APIstub symbolKey symbol in
                  match err with
                  | Some _ => (Error "Failed to set token symbol", APIstub)
                  | None =>
                      let (APIstub, err) :=
                        PutState APIstub decimalsKey (Itoa decimals) in
                      match err with
                      | Some _ => (Error "Failed to set token decimals", APIstub)
                      | None =>
                          let (APIstub, err) :=
                            PutState APIstub totalSupplyKey (Itoa totalSupply) in
                          match err with
                          | Some _ => (Error "Failed to set token total supply", APIstub)
                          | None => (Success None, APIstub)
                          end
                      end
                  end
              end
          end
      end
  | _ => (Error "Incorrect number of arguments. Expecting 4", APIstub)
  end.

(** Invoke, the entry point: [function] and [args] are what
    [GetFunctionAndParameters] returns. *)
Definition Invoke (APIstub : Stub) (function : string) (args : list string)
  : Response * Stub :=
  if String.eqb function "Mint" then Mint APIstub args
  else if String.eqb function "Burn" then Burn APIstub args
  else if String.eqb function "Transfer" then Transfer APIstub args
  else if String.eqb function "BalanceOf" then BalanceOf APIstub args
  else if String.eqb function "ClientAccountBalance" then ClientAccountBalance APIstub args
  else if String.eqb function "ClientAccountID" then ClientAccountID APIstub args
  else if String.eqb function "TotalSupply" then TotalSupply APIstub args
  else if String.eqb function "Approve" then Approve APIstub args
  else if String.eqb function "Allowance" then Allowance APIstub args
  else if String.eqb function "TransferFrom" then TransferFrom APIstub args
  else if String.eqb function "Name" then Name APIstub args
  else if String.eqb function "Symbol" then Symbol APIstub args
  else if String.eqb function "Initialize" then Initialize APIstub args
  else (Error "Invalid function name", APIstub).

End Peer.

(** ** src/token-erc-20-sc.go

    This variant repeats [Mint], [Burn], [Transfer], [BalanceOf] and
    [TotalSupply] of the peer variant line for line.  The file uses
    [allowancePrefix] without declaring it and returns [json.Marshal(token)]
    from [Initialize]: both are taken as parameters, so [Initialize],
    [Approve], [Allowance] and [TransferFrom] are embedded here. *)

Module SC.

Record Token := {
  Name : string;
  Symbol : string;
  Decimals : Z;
  TotalSupply : Z
}.

Section Variant.

Variable allowancePrefix : string.
Variable jsonMarshal : Token -> string.

Definition Initialize (APIstub : Stub) (args : list string) : Response * Stub :=
  match args with
  | [name; symbol; d; t] =>
      match Atoi d with
      | (_, Some _) => (Error "Invalid decimals. Expecting a numeric string", APIstub)
      | (decimals, None) =>
          match Atoi t with
          | (_, Some _) => (Error "Invalid total supply. Expecting a numeric string", APIstub)
          | (totalSupply, None) =>
              let token := {| Name := name; Symbol := symbol;
                              Decimals := decimals; TotalSupply := totalSupply |} in
              let tokenBytes := jsonMarshal token in
              let (APIstub, err) := PutState APIstub Peer.nameKey name in
              match err with
              | Some _ => (Error "Failed to set token name", APIstub)
              | None =>
                  let (APIstub, err) := PutState APIstub Peer.symbolKey symbol in
                  match err with
                  | Some _ => (Error "Failed to set token symbol", APIstub)
                  | None =>
                      let (APIstub, err) :=
                        PutState APIstub Peer.decimalsKey (Itoa decimals) in
                      match err with
                      | Some _ => (Error "Failed to set token decimals", APIstub)
                      | None =>
                          let (APIstub, err) :=
                            PutState APIstub Peer.totalSupplyKey (Itoa totalSupply) in
                          match err with
                          | Some _ => (Error "Failed to set token total supply", APIstub)
                          | None => (Success (Some tokenBytes), APIstub)
                          end
                      end
                  end
              end
          end
      end
  | _ => (Error "Incorrect number of arguments. Expecting 4", APIstub)
  end.

(** Approve allows [spender] to withdraw from [owner]'s account, multiple
    times, up to the [amount]. *)
Definition Approve (APIstub : Stub) (args : list string) : Response * Stub :=
  match args with
  | [owner; spender; a] =>
      match Atoi a with
      | (_, Some _) => (Error "Invalid amount. Expecting a numeric string", APIstub)
      | (amount, None) =>
          let allowanceKey := allowancePrefix ++ owner ++ spender in
          let (APIstub, err) := PutState APIstub allowanceKey (Itoa amount) in
          match err with
          | Some _ => (Error "Failed to set allowance", APIstub)
          | None => (Success None, APIstub)
          end
      end
  | _ => (Error "Incorrect number of arguments. Expecting 3", APIstub)
  end.

(** Allowance returns the amount which [spender] is still allowed to
    withdraw from [owner]. *)
Definition Allowance (APIstub : Stub) (args : list string) : Response * Stub :=
  match args with
  | [owner; spender] =>
      let allowanceKey := allowancePrefix ++ owner ++ spender in
      match GetState APIstub allowanceKey with
      | None => (Error "Allowance not found", APIstub)
      | Some allowanceBytes => (Success (Some allowanceBytes), APIstub)
      end
  | _ => (Error "Incorrect number of arguments. Expecting 2", APIstub)
  end.

(** Here the argument order is [from, to, amount, owner]: the allowance
    looked up is the one of ([owner], [from]) and the account debited is
    [from]. *)
Definition TransferFrom (APIstub : Stub) (args : list string) : Response * Stub :=
  match args with
  | [from; to; a; owner] =>
      match Atoi a with
      | (_, Some _) => (Error "Invalid amount. Expecting a numeric string", APIstub)
      | (amount, None) =>
          let allowanceKey := allowancePrefix ++ owner ++ from in
          match GetState APIstub allowanceKey with
          | None => (Error "Allowance not found", APIstub)
          | Some allowanceBytes =>
              let allowance := fst (Atoi allowanceBytes) in
              if allowance <? amount then (Error "Insufficient allowance", APIstub)
              else
                match GetState APIstub from with
                | None => (Error "Sender account not found", APIstub)
                | Some fromBalanceBytes =>
                    let fromBalance := fst (Atoi fromBalanceBytes) in
                    if fromBalance <? amount then (Error "Insufficient balance", APIstub)
                    else
                      let toBalance :=
                        match GetState APIstub to with
                        | None => 0
                        | Some toBalanceBytes => fst (Atoi toBalanceBytes)
                        end in
                      let fromBalance := wrap64 (fromBalance - amount) in
                      let toBalance := wrap64 (toBalance + amount) in
                      let allowance := wrap64 (allowance - amount) in
                      let (APIstub, err) := PutState APIstub from (Itoa fromBalance) in
                      match err with
                      | Some err => (ErrorOf err, APIstub)
                      | None =>
                          let (APIstub, err) := PutState APIstub to (Itoa toBalance) in
                          match err with
                          | Some err => (ErrorOf err, APIstub)
                          | None =>
                              let (APIstub, err) :=
                                PutState APIstub allowanceKey (Itoa allowance) in
                              match err with
                              | Some err => (ErrorOf err, APIstub)
                              | None =>
                                  let APIstub :=
                                    SetEvent APIstub "Transfer"
                                      {| From := from; To := to; Value := amount |} in
                                  (Success None, APIstub)
                              end
                          end
                      end
                end
          end
      end
  | _ => (Error "Incorrect number of arguments. Expecting 4", APIstub)
  end.

End Variant.

Definition Mint := Peer.Mint.
Definition Burn := Peer.Burn.
Definition Transfer := Peer.Transfer.

Definition BalanceOf := Peer.BalanceOf.
(** TotalSupply, named apart from the field of [Token]. *)
Definition TotalSupplyOp := Peer.TotalSupply.

(** GetClientAccountID is a helper function to get the ID of the client
    invoking the transaction. *)
Definition GetClientAccountID (APIstub : Stub) : string :=
  let clientIdentity := GetCreator APIstub in
  let clientID := clientIdentity in
  clientID.

(** ClientAccountBalance returns the balance of the account invoking the
    transaction; here the lookup is written out instead of calling
    BalanceOf. *)
Definition ClientAccountBalance (APIstub : Stub) (args : list string) : Response * Stub :=
  let clientID := GetClientAccountID APIstub in
  match GetState APIstub clientID with
  | None => (Error "Account not found", APIstub)
  | Some balanceBytes => (Success (Some balanceBytes), APIstub)
  end.

Definition ClientAccountID (APIstub : Stub) (args : list string) : Response * Stub :=
  let clientID := GetClientAccountID APIstub in
  (Success (Some clientID), APIstub).

(** Invoke of this file: it knows neither Name nor Symbol. *)
Definition Invoke (allowancePrefix : string) (jsonMarshal : Token -> string)
    (APIstub : Stub) (function : string) (args : list string) : Response * Stub :=
  if String.eqb function "Initialize" then Initialize jsonMarshal APIstub args
  else if String.eqb function "Mint" then Mint APIstub args
  else if String.eqb function "Burn" then Burn APIstub args
  else if String.eqb function "Transfer" then Transfer APIstub args
  else if String.eqb function "BalanceOf" then BalanceOf APIstub args
  else if String.eqb function "ClientAccountBalance" then ClientAccountBalance APIstub args
  else if String.eqb function "ClientAccountID" then ClientAccountID APIstub args
  else if String.eqb function "TotalSupply" then TotalSupplyOp APIstub args
  else if String.eqb function "Approve" then Approve allowancePrefix APIstub args
  else if String.eqb function "Allowance" then Allowance allowancePrefix APIstub args
  else if String.eqb function "TransferFrom" then TransferFrom allowancePrefix APIstub args
  else (Error "Invalid function name", APIstub).

End SC.

(** ** src/go/token_erc_20.go: the map-based variant *)

Module MapToken.

(** Token represents an ERC20 token; [Total] and the balances are
    [uint64]. *)
Record Token := {
  Name : string;
  Symbol : string;
  Total : Z;
  Decimals : Z;
  Balance : gmap string Z
}.

(** The only key this variant uses is "token", holding [json.Marshal] of a
    [Token].  The world state keeps the decoded record.  [encoding/json]
    gives a record back as it was when its name, its symbol and its balance
    keys are valid UTF-8; it writes U+FFFD for each ill-formed byte
    otherwise, so a record read from the ledger always has valid strings.
    Keys made by [hex.EncodeToString] are valid; where a statement depends
    on a name, a symbol or a key taken from the arguments or from the raw
    identity, it carries [utf8.ValidString] of it as a hypothesis.  A
    missing key makes [json.Unmarshal] fail on the nil input.  Every record
    the chaincode writes carries a map made by [make], so [Balance] is never
    the nil map.  The one key written is the constant "token", and
    [PutState] on it is taken to succeed. *)
Record Stub := {
  State : gmap string Token;
  Writes : list (string * Token);
  Events : list (string * string);
  Creator : string
}.

Inductive GoError :=
| NumErr (func num : string) (err : NumError)
| JSONSyntaxError (msg : string).

(** [shim.Error(fmt.Sprintf(format, err))] is kept as [Errorf format err]. *)
Inductive Response :=
| Success (payload : option string)
| Error (msg : string)
| Errorf (format : string) (err : GoError).

Definition GetState (stub : Stub) (key : string) : option Token :=
  State stub !! key.

Definition PutState (stub : Stub) (key : string) (value : Token) : Stub :=
  {| State := <[key := value]> (State stub);
     Writes := (key, value) :: Writes stub;
     Events := Events stub;
     Creator := Creator stub |}.

Definition SetEvent (stub : Stub) (name payload : string) : Stub :=
  {| State := State stub;
     Writes := Writes stub;
     Events := (name, payload) :: Events stub;
     Creator := Creator stub |}.

Definition GetCreator (stub : Stub) : string := Creator stub.

Definition unexpectedEOF := JSONSyntaxError "unexpected end of JSON input".

(** [hex.EncodeToString] *)
Definition hexDigit (n : N) : ascii :=
  match n with
  | 0 => "0" | 1 => "1" | 2 => "2" | 3 => "3" | 4 => "4" | 5 => "5"
  | 6 => "6" | 7 => "7" | 8 => "8" | 9 => "9" | 10 => "a" | 11 => "b"
  | 12 => "c" | 13 => "d" | 14 => "e" | _ => "f"
  end%N%char.

Fixpoint EncodeToString (src : string) : string :=
  match src with
  | EmptyString => EmptyString
  | String c rest =>
      String (hexDigit (N_of_ascii c / 16))
        (String (hexDigit (N_of_ascii c mod 16)) (EncodeToString rest))
  end.

(** [token.Balance[k]] on a Go map: the zero value when [k] is absent. *)
Definition balanceAt (token : Token) (k : string) : Z :=
  default 0 (Balance token !! k).

Definition setBalance (token : Token) (k : string) (v : Z) : Token :=
  {| Name := Name token; Symbol := Symbol token; Total := Total token;
     Decimals := Decimals token; Balance := <[k := v]> (Balance token) |}.

Definition setTotal (token : Token) (v : Z) : Token :=
  {| Name := Name token; Symbol := Symbol token; Total := v;
     Decimals := Decimals token; Balance := Balance token |}.

(** Initialize the token with name, symbol, total supply, and decimals. *)
Definition Initialize (stub : Stub) (args : list string) : Response * Stub :=
  match args with
  | [name; symbol; t; d] =>
      match ParseUint t 64 with
      | (_, Some e) => (Errorf "Invalid total supply: %s" (NumErr "ParseUint" t e), stub)
      | (totalSupply, None) =>
          match ParseUint d 8 with
          | (_, Some e) => (Errorf "Invalid decimals: %s" (NumErr "ParseUint" d e), stub)
          | (decimals, None) =>
              let token := {| Name := name; Symbol := symbol; Total := totalSupply;
                              Decimals := decimals; Balance := ∅ |} in
              let creator := GetCreator stub in
              let token := setBalance token (EncodeToString creator) totalSupply in
              let stub := PutState stub "token" token in
              (Success None, stub)
          end
      end
  | _ => (Error "Incorrect number of arguments. Expected 4: name, symbol, total supply, decimals", stub)
  end.

(** Mint creates new tokens and adds them to the minter's account balance. *)
Definition Mint (stub : Stub) (args : list string) : Response * Stub :=
  match args with
  | [a] =>
      match ParseUint a 64 with
      | (_, Some e) => (Errorf "Invalid amount: %s" (NumErr "ParseUint" a e), stub)
      | (amount, None) =>
          match GetState stub "token" with
          | None => (Errorf "Failed to unmarshal token: %s" unexpectedEOF, stub)
          | Some token =>
              let creator := GetCreator stub in
              let creatorHex := EncodeToString creator in
              let token := setTotal token (wrapU64 (Total token + amount)) in
              let token := setBalance token creatorHex
                             (wrapU64 (balanceAt token creatorHex + amount)) in
              let stub := PutState stub "token" token in
              let stub := SetEvent stub "Transfer"
                            ("Minted " ++ Itoa amount ++ " tokens to " ++ creatorHex) in
              (Success None, stub)
          end
      end
  | _ => (Error "Incorrect number of arguments. Expecting 1: amount", stub)
  end.

(** ClientAccountBalance retrieves the account balance of the client's
    account. *)
Definition ClientAccountBalance (stub : Stub) : Response * Stub :=
  let clientID := GetCreator stub in
  match GetState stub "token" with
  | None => (Errorf "Failed to unmarshal token: %s" unexpectedEOF, stub)
  | Some token =>
      let clientIDHex := EncodeToString clientID in
      match Balance token !! clientIDHex with
      | Some balance => (Success (Some (Itoa balance)), stub)
      | None =>
          let balance := 0 in
          let token := setBalance token clientIDHex balance in
          let stub := PutState stub "token" token in
          (Success (Some (Itoa balance)), stub)
      end
  end.

Definition ClientAccountID (stub : Stub) : Response * Stub :=
  let clientID := GetCreator stub in
  let addressHex := EncodeToString clientID in
  (Success (Some addressHex), stub).

(** transfer moves tokens from the creator's entry to the receiver's. *)
Definition transfer (stub : Stub) (args : list string) : Response * Stub :=
  match args with
  | [receiver; a] =>
      match ParseUint a 64 with
      | (_, Some e) => (Errorf "Invalid amount: %s" (NumErr "ParseUint" a e), stub)
      | (amount, None) =>
          match GetState stub "token" with
          | None => (Errorf "Failed to unmarshal token: %s" unexpectedEOF, stub)
          | Some token =>
              let sender := GetCreator stub in
              let senderBalance := balanceAt token sender in
              if senderBalance <? amount then (Error "Insufficient balance", stub)
              else
                let token := setBalance token sender
                               (wrapU64 (balanceAt token sender - amount)) in
                let token := setBalance token receiver
                               (wrapU64 (balanceAt token receiver + amount)) in
                let stub := PutState stub "token" token in
                (Success None, stub)
          end
      end
  | _ => (Error "Incorrect number of arguments. Expecting 2: to address and amount", stub)
  end.

(** balanceOf returns the balance of the given account. *)
Definition balanceOf (stub : Stub) (args : list string) : Response * Stub :=
  match args with
  | [address] =>
      if String.eqb address "" then
        (Error "Address argument must be a non-empty string", stub)
      else
        match GetState stub "token" with
        | None => (Error "Token state does not exist", stub)
        | Some token =>
            match Balance token !! address with
            | None => (Error ("No balance found for address: " ++ address), stub)
            | Some balance => (Success (Some (Itoa balance)), stub)
            end
        end
  | _ => (Error "Incorrect number of arguments. Expecting 1: to address", stub)
  end.

(** name returns a descriptive name for fungible tokens in this contract. *)
Definition name (stub : Stub) : Response * Stub :=
  match GetState stub "token" with
  | None => (Errorf "Failed to unmarshal token: %s" unexpectedEOF, stub)
  | Some token => (Success (Some (Name token)), stub)
  end.

(** symbol returns an abbreviated name for fungible tokens in this
    contract. *)
Definition symbol (stub : Stub) : Response * Stub :=
  match GetState stub "token" with
  | None => (Errorf "Failed to unmarshal token: %s" unexpectedEOF, stub)
  | Some token => (Success (Some (Symbol token)), stub)
  end.

(** totalSupply returns the total token supply. *)
Definition totalSupply (stub : Stub) : Response * Stub :=
  match GetState stub "token" with
  | None => (Errorf "Failed to unmarshal token: %s" unexpectedEOF, stub)
  | Some token => (Success (Some (Itoa (Total token))), stub)
  end.

Definition Invoke (stub : Stub) (function : string) (args : list string)
  : Response * Stub :=
  if String.eqb function "Initialize" then Initialize stub args
  else if String.eqb function "Mint" then Mint stub args
  else if String.eqb function "ClientAccountBalance" then ClientAccountBalance stub
  else if String.eqb function "ClientAccountID" then ClientAccountID stub
  else if String.eqb function "transfer" then transfer stub args
  else if String.eqb function "balanceOf" then balanceOf stub args
  else if String.eqb function "name" then name stub
  else if String.eqb function "symbol" then symbol stub
  else if String.eqb function "totalSupply" then totalSupply stub
  else (Error "Invalid function name", stub).

End MapToken.

(** ** src/unnamed/part_000: the map-based variant keyed by the raw identity

    The record, the stub and the responses are those of [MapToken];
    [transfer], [balanceOf], [name], [symbol] and [totalSupply] have the same
    text in both files.  Initialize, Mint and the two identity queries use
    [string(creator)] where the other file uses its hex encoding. *)

Module MapTokenRaw.

Import MapToken.

Definition Initialize (stub : Stub) (args : list string) : Response * Stub :=
  match args with
  | [name; symbol; t; d] =>
      match ParseUint t 64 with
      | (_, Some e) => (Errorf "Invalid total supply: %s" (NumErr "ParseUint" t e), stub)
      | (totalSupply, None) =>
          match ParseUint d 8 with
          | (_, Some e) => (Errorf "Invalid decimals: %s" (NumErr "ParseUint" d e), stub)
          | (decimals, None) =>
              let token := {| Name := name; Symbol := symbol; Total := totalSupply;
                              Decimals := decimals; Balance := ∅ |} in
              let creator := GetCreator stub in
              let token := setBalance token creator totalSupply in
              let stub := PutState stub "token" token in
              (Success None, stub)
          end
      end
  | _ => (Error "Incorrect number of arguments. Expected 4: name, symbol, total supply, decimals", stub)
  end.

Definition Mint (stub : Stub) (args : list string) : Response * Stub :=
  match args with
  | [a] =>
      match ParseUint a 64 with
      | (_, Some e) => (Errorf "Invalid amount: %s" (NumErr "ParseUint" a e), stub)
      | (amount, None) =>
          match GetState stub "token" with
          | None => (Errorf "Failed to unmarshal token: %s" unexpectedEOF, stub)
          | Some token =>
              let creator := GetCreator stub in
              let token := setTotal token (wrapU64 (Total token + amount)) in
              let token := setBalance token creator
                             (wrapU64 (balanceAt token creator + amount)) in
              let stub := PutState stub "token" token in
              let stub := SetEvent stub "Transfer"
                            ("Minted " ++ Itoa amount ++ " tokens to " ++ creator) in
              (Success None, stub)
          end
      end
  | _ => (Error "Incorrect number of arguments. Expecting 1: amount", stub)
  end.

(** ClientAccountID retrieves the client account ID. *)
Definition ClientAccountID (stub : Stub) : Response * Stub :=
  let clientID := GetCreator stub in
  (Success (Some clientID), stub).

(** ClientAccountBalance retrieves the account balance of the client's
    account.  ClientAccountID always answers with status OK here; for any
    other answer the source wraps the message it carries. *)
Definition ClientAccountBalance (stub : Stub) : Response * Stub :=
  match fst (ClientAccountID stub) with
  | Success payload =>
      let clientID := default "" payload in
      match GetState stub "token" with
      | None => (Errorf "Failed to unmarshal token: %s" unexpectedEOF, stub)
      | Some token =>
          match Balance token !! clientID with
          | None => (Error ("Balance not found for client ID: " ++ clientID), stub)
          | Some balance => (Success (Some (Itoa balance)), stub)
          end
      end
  | Error msg => (Error ("Failed to get client ID: " ++ msg), stub)
  | Errorf format err => (Errorf ("Failed to get client ID: " ++ format) err, stub)
  end.

Definition transfer := MapToken.transfer.
Definition balanceOf := MapToken.balanceOf.
Definition name := MapToken.name.
Definition symbol := MapToken.symbol.
Definition totalSupply := MapToken.totalSupply.

Definition Invoke (stub : Stub) (function : string) (args : list string)
  : Response * Stub :=
  if String.eqb function "Initialize" then Initialize stub args
  else if String.eqb function "Mint" then Mint stub args
  else if String.eqb function "ClientAccountBalance" then ClientAccountBalance stub
  else if String.eqb function "ClientAccountID" then ClientAccountID stub
  else if String.eqb function "transfer" then transfer stub args
  else if String.eqb function "balanceOf" then balanceOf stub args
  else if String.eqb function "name" then name stub
  else if String.eqb function "symbol" then symbol stub
  else if String.eqb function "totalSupply" then totalSupply stub
  else (Error "Invalid function name", stub).

End MapTokenRaw.

(** ** Observations used in the statements *)

(** The balance the chaincode computes for [account]: [Atoi] of the stored
    bytes with the error dropped, and 0 when nothing is stored. *)
Definition balanceOf (APIstub : Stub) (account : string) : Z :=
  match GetState APIstub account with
  | None => 0
  | Some balanceBytes => fst (Atoi balanceBytes)
  end.

Definition allowanceOf (APIstub : Stub) (owner spender : string) : Z :=
  balanceOf APIstub (Peer.allowancePrefix ++ owner ++ spender).

Definition totalSupplyOf (APIstub : Stub) : Z :=
  balanceOf APIstub Peer.totalSupplyKey.

Definition int64 (z : Z) : Prop := - 2 ^ 63 <= z < 2 ^ 63.
Definition uint64 (z : Z) : Prop := 0 <= z < 2 ^ 64.

(** What the host keeps of an invocation: the writes and the events of an
    invocation that does not answer with success are not committed, and the
    ledger stays as the invocation found it. *)
Definition committed (APIstub : Stub) (r : Response * Stub) : Stub :=
  match fst r with
  | Success _ => snd r
  | _ => APIstub
  end.

(** The Fabric shim's [PutState] returns an error for the empty key. *)
Definition shimRefuses (key : string) : bool := String.eqb key "".

(** A fresh ledger holding the given entries, on a host with the shim's
    rule. *)
Definition ledger (entries : list (string * string)) : Stub :=
  {| State := list_to_map entries; Writes := []; Events := []; Creator := "";
     Refuses := shimRefuses |}.

(** The value of a digit sequence read left to right from [acc]. *)
Fixpoint uintVal (d : uint) (acc : Z) : Z :=
  match d with
  | Nil => acc
  | D0 d => uintVal d (10 * acc)
  | D1 d => uintVal d (10 * acc + 1)
  | D2 d => uintVal d (10 * acc + 2)
  | D3 d => uintVal d (10 * acc + 3)
  | D4 d => uintVal d (10 * acc + 4)
  | D5 d => uintVal d (10 * acc + 5)
  | D6 d => uintVal d (10 * acc + 6)
  | D7 d => uintVal d (10 * acc + 7)
  | D8 d => uintVal d (10 * acc + 8)
  | D9 d => uintVal d (10 * acc + 9)
  end.

(** The messages of the failures that come from validating a request:
    argument count, argument parsing, insufficient balance, absent or
    insufficient allowance, missing account. *)
Definition validationFailures : list string :=
  [ "Incorrect number of arguments. Expecting 2";
    "Incorrect number of arguments. Expecting 3";
    "Incorrect number of arguments. Expecting 4";
    "Invalid amount. Expecting a numeric string";
    "Invalid decimals. Expecting a numeric string";
    "Invalid total supply. Expecting a numeric string";
    "Insufficient balance";
    "Allowance not found";
    "Allowance exceeded";
    "Insufficient allowance";
    "Account not found";
    "Sender account not found";
    "Owner account not found" ].

(** The six mutating operations of the peer variant. *)
Definition mutatingOperations : list (Stub -> list string -> Response * Stub) :=
  [ Peer.Initialize; Peer.Mint; Peer.Burn; Peer.Transfer; Peer.Approve;
    Peer.TransferFrom ].

(** A map-variant ledger holding one token record, and a sample record:
    the caller "A" is "41" in hex. *)
Definition tokenLedger (token : MapToken.Token) (creator : string) : MapToken.Stub :=
  {| MapToken.State := {[ "token" := token ]};
     MapToken.Writes := [];
     MapToken.Events := [];
     MapToken.Creator := creator |}.

Definition gold (balances : list (string * Z)) (total : Z) : MapToken.Token :=
  {| MapToken.Name := "Gold"; MapToken.Symbol := "GLD"; MapToken.Total := total;
     MapToken.Decimals := 2; MapToken.Balance := list_to_map balances |}.

(** *** The statements of the specification that the code does not meet,
    written as the specification words them *)

(** "For all valid Mint(amount), caller balance and totalSupply increase by
    exactly amount, and a Transfer event with an empty from is recorded." *)
Definition Mint_raises_balance_and_supply
    (stub : Stub) (minter a : string) (amount : Z) : Prop :=
  let r := Peer.Mint stub [minter; a] in
  fst r = Success None /\
  balanceOf (snd r) minter = balanceOf stub minter + amount /\
  totalSupplyOf (snd r) = totalSupplyOf stub + amount /\
  head (Events (snd r))
    = Some ("Transfer", {| From := ""; To := minter; Value := amount |}).

(** "For all Burn(amount) where amount <= current balance, balance and
    totalSupply decrease by amount." *)
Definition Burn_lowers_balance_and_supply
    (stub : Stub) (minter a : string) (amount : Z) : Prop :=
  amount <= balanceOf stub minter ->
  let r := Peer.Burn stub [minter; a] in
  fst r = Success None /\
  balanceOf (snd r) minter = balanceOf stub minter - amount /\
  totalSupplyOf (snd r) = totalSupplyOf stub - amount.

(** "For every operation whose addition of two unsigned 64-bit amounts
    would exceed the uint64 maximum (for example Mint into a balance or
    totalSupply near the maximum), the invocation fails with an explicit
    error and makes no state change, rather than storing a wrapped-around
    value."  Stated for Mint of the map-based variant, whose amounts are
    [uint64]. *)
Definition Mint_overflow_rejected (stub : MapToken.Stub) (a : string) : Prop :=
  forall amount token,
    ParseUint a 64 = (amount, None) ->
    MapToken.GetState stub "token" = Some token ->
    let caller := MapToken.EncodeToString (MapToken.Creator stub) in
    2 ^ 64 - 1 < MapToken.Total token + amount \/
    2 ^ 64 - 1 < MapToken.balanceAt token caller + amount ->
    let r := MapToken.Mint stub [a] in
    (forall payload, fst r <> MapToken.Success payload) /\
    MapToken.State (snd r) = MapToken.State stub.

(** "Returns current allowance (0 if unset, not an error)." *)
Definition Allowance_unset_is_zero (stub : Stub) (owner spender : string) : Prop :=
  GetState stub (Peer.allowancePrefix ++ owner ++ spender) = None ->
  Peer.Allowance stub [owner; spender] = (Success (Some "0"), stub).

(** *** Further observations *)

(** The function names the peer Invoke knows, and those among them that
    only read. *)
Definition peerFunctions : list string :=
  [ "Mint"; "Burn"; "Transfer"; "BalanceOf"; "ClientAccountBalance";
    "ClientAccountID"; "TotalSupply"; "Approve"; "Allowance"; "TransferFrom";
    "Name"; "Symbol"; "Initialize" ].

Definition queryFunctions : list string :=
  [ "BalanceOf"; "ClientAccountBalance"; "ClientAccountID"; "TotalSupply";
    "Allowance"; "Name"; "Symbol" ].

(** The keys an invocation of the peer variant names through its function
    and arguments: the only ones it passes to PutState. *)
Definition namedKeys (function : string) (args : list string) : list string :=
  if String.eqb function "Mint" || String.eqb function "Burn" then
    match args with [minter; _] => [minter] | _ => [] end
  else if String.eqb function "Transfer" then
    match args with [from; to; _] => [from; to] | _ => [] end
  else if String.eqb function "Approve" then
    match args with
    | [owner; spender; _] => [Peer.allowancePrefix ++ owner ++ spender]
    | _ => []
    end
  else if String.eqb function "TransferFrom" then
    match args with
    | [owner; spender; to; _] =>
        [owner; to; Peer.allowancePrefix ++ owner ++ spender]
    | _ => []
    end
  else if String.eqb function "Initialize" then
    [Peer.nameKey; Peer.symbolKey; Peer.decimalsKey; Peer.totalSupplyKey]
  else [].

(** The sum of the balances of a token record, and the agreement of
    [Total] with it as [uint64] values, that is modulo 2^64. *)
Definition sumBalances (balances : gmap string Z) : Z :=
  map_fold (fun _ v acc => v + acc) 0 balances.

Definition supplyMatchesBalances (token : MapToken.Token) : Prop :=
  wrapU64 (MapToken.Total token) = wrapU64 (sumBalances (MapToken.Balance token)).

(** The record the map-based variants hold under "token", if any. *)
Definition tokenOf (stub : MapToken.Stub) : option MapToken.Token :=
  MapToken.GetState stub "token".

(** Every balance key of the record is valid UTF-8, and the record is one
    that [json.Unmarshal] can yield: its name and symbol are valid too. *)
Definition keysValid (token : MapToken.Token) : bool :=
  forallb (fun kv => utf8.ValidString (fst kv))
    (map_to_list (MapToken.Balance token)).

Definition storedForm (token : MapToken.Token) : bool :=
  utf8.ValidString (MapToken.Name token)
  && utf8.ValidString (MapToken.Symbol token)
  && keysValid token.

(** The functions of the map-based Invoke that only read. *)
Definition mapQueries : list string :=
  [ "ClientAccountID"; "balanceOf"; "name"; "symbol"; "totalSupply" ].

(** *** Proof helpers *)

(** Case analysis along the branches of an operation, in a hypothesis
    [H : op stub args = result]. *)
Ltac break_head H :=
  repeat (cbv beta iota zeta in H; cbn [Refuses recordWrite] in H;
          match type of H with
          | (match (if ?b then _ else _) with _ => _ end) = _ => destruct b eqn:?
          | (match ?x with _ => _ end) = _ => destruct x eqn:?
          end).

(** A failure with a validation message came back with the stub untouched. *)
Ltac settle_failure H Hin :=
  unfold PutState in H; break_head H;
  first [ discriminate H
        | injection H as <- <-;
          first [ reflexivity
                | exfalso; simpl in Hin; intuition discriminate ] ].

(** Case analysis on the function name given to a dispatcher. *)
Ltac by_function function :=
  repeat match goal with
         | |- context [String.eqb function ?s] =>
             destruct (String.eqb_spec function s) as [-> | ?]; simpl String.eqb
         end.

(** The run of one operation, branch by branch: [H] names the equation
    [op stub args = (r, stub')] once [unfolding] has exposed the body. *)
Ltac run_branches unfolding H :=
  match goal with
  | |- context [snd ?call] =>
      lazymatch call with
      | _ _ _ => destruct call as [? ?] eqn:H
      end
  end;
  unfolding H; unfold PutState in H; break_head H;
  injection H as <- <-; cbn [fst snd].

(** ** Facts about the number codec *)

Lemma wrap64_id z : int64 z -> wrap64 z = z.
Proof.
  unfold int64, wrap64. intros H.
  rewrite Z.mod_small by lia. lia.
Qed.

Lemma wrap64_range z : int64 (wrap64 z).
Proof.
  unfold int64, wrap64.
  pose proof (Z.mod_pos_bound (z + 2 ^ 63) (2 ^ 64) ltac:(lia)). lia.
Qed.

Lemma wrap64_over z : 2 ^ 63 <= z < 2 ^ 64 + 2 ^ 63 -> wrap64 z = z - 2 ^ 64.
Proof.
  unfold wrap64. intros H.
  replace (z + 2 ^ 63) with ((z - 2 ^ 64 + 2 ^ 63) + 1 * 2 ^ 64) by lia.
  rewrite Z.mod_add by lia. rewrite Z.mod_small by lia. lia.
Qed.

Lemma wrapU64_id z : uint64 z -> wrapU64 z = z.
Proof. unfold uint64, wrapU64. intros H. apply Z.mod_small. lia. Qed.

Lemma uintVal_mono d : forall acc, 0 <= acc -> acc <= uintVal d acc.
Proof.
  induction d; simpl; intros acc Hacc; try lia;
    match goal with
    | |- _ <= uintVal _ ?a => specialize (IHd a ltac:(lia)); lia
    end.
Qed.

Lemma of_uint_acc_uintVal d : forall acc,
  Z.pos (Pos.of_uint_acc d acc) = uintVal d (Z.pos acc).
Proof.
  induction d; simpl; intros acc; try reflexivity;
    rewrite IHd; f_equal; lia.
Qed.

Lemma of_uint_uintVal d : Z.of_N (Pos.of_uint d) = uintVal d 0.
Proof.
  induction d; simpl; try reflexivity; try assumption;
    apply of_uint_acc_uintVal.
Qed.

Lemma parseUintLoop_digits d : forall n,
  0 <= n -> uintVal d n < 2 ^ 64 ->
  parseUintLoop (2 ^ 64 - 1) (NilEmpty.string_of_uint d) n = (uintVal d n, None).
Proof.
  induction d; intros n Hn Hv; try reflexivity;
    cbn [NilEmpty.string_of_uint parseUintLoop uintVal] in *;
    match goal with
    | |- context [digitVal ?c] =>
        let v := eval vm_compute in (digitVal c) in change (digitVal c) with v
    end;
    cbv iota;
    match type of Hv with
    | uintVal _ ?a < _ =>
        pose proof (uintVal_mono d a ltac:(lia));
        assert (Hc : (cutoff10 <=? n) = false)
          by (apply Z.leb_gt; unfold cutoff10; change ((2 ^ 64 - 1) / 10 + 1)
                with 1844674407370955162; lia);
        rewrite Hc;
        replace (n * 10 + _) with a by lia;
        assert (Hr : ((2 ^ 64 <=? a) || (2 ^ 64 - 1 <? a)) = false)
          by (apply orb_false_intro; [apply Z.leb_gt | apply Z.ltb_ge]; lia);
        rewrite Hr; apply IHd; lia
    end.
Qed.

Lemma parseUintLoop_nonneg maxVal s : forall n v e,
  0 <= maxVal -> 0 <= n -> parseUintLoop maxVal s n = (v, e) -> 0 <= v.
Proof.
  induction s as [|c s IH]; simpl; intros n v e Hm Hn H.
  - injection H as <- _. exact Hn.
  - destruct (digitVal c) as [d|] eqn:Hd.
    + assert (0 <= d).
      { unfold digitVal in Hd. cbv zeta in Hd.
        destruct (48 <=? Z.of_N (N_of_ascii c)) eqn:E; [|discriminate Hd].
        apply Z.leb_le in E.
        destruct (Z.of_N (N_of_ascii c) <=? 57); [|discriminate Hd].
        injection Hd as <-. lia. }
      destruct (cutoff10 <=? n); [injection H as <- _; exact Hm|].
      destruct (_ || _); [injection H as <- _; exact Hm|].
      eapply IH; [exact Hm| |exact H]. lia.
    + injection H as <- _. lia.
Qed.

Lemma ParseUint_nonneg s v e : ParseUint s 64 = (v, e) -> 0 <= v.
Proof.
  unfold ParseUint. destruct s as [|c s].
  - intros H. injection H as <- _. lia.
  - apply parseUintLoop_nonneg; lia.
Qed.

(** Whatever the text, the value [Atoi] returns is a 64-bit integer. *)
Lemma Atoi_int64 s : int64 (fst (Atoi s)).
Proof.
  unfold Atoi, int64. destruct s as [|c r]; [simpl; lia|].
  cbv zeta.
  destruct (ParseUint _ 64) as [un e] eqn:HP.
  apply ParseUint_nonneg in HP.
  assert (Hgoal : - 2 ^ 63 <=
      fst (if negb (Ascii.eqb c "-") && (2 ^ 63 <=? un) then (2 ^ 63 - 1, Some ErrRange)
           else if Ascii.eqb c "-" && (2 ^ 63 <? un) then (- 2 ^ 63, Some ErrRange)
           else (if Ascii.eqb c "-" then - un else un, None)) < 2 ^ 63).
  { destruct (Ascii.eqb c "-"); simpl.
    - destruct (2 ^ 63 <? un) eqn:Hlt; simpl; [lia|]. apply Z.ltb_ge in Hlt. lia.
    - destruct (2 ^ 63 <=? un) eqn:Hle; simpl; [lia|]. apply Z.leb_gt in Hle. lia. }
  destruct e as [[|]|]; simpl; try lia; exact Hgoal.
Qed.

Lemma string_of_uint_head d : d <> Nil ->
  exists c r, NilEmpty.string_of_uint d = String c r /\
              Ascii.eqb c "-" = false /\ Ascii.eqb c "+" = false.
Proof.
  destruct d; intros H; try congruence; simpl; eauto.
Qed.

Lemma ParseUint_to_uint p :
  Z.pos p < 2 ^ 64 ->
  ParseUint (NilEmpty.string_of_uint (Pos.to_uint p)) 64 = (Z.pos p, None).
Proof.
  intros Hp.
  assert (Hv : uintVal (Pos.to_uint p) 0 = Z.pos p).
  { rewrite <- of_uint_uintVal, DecimalPos.Unsigned.of_to. reflexivity. }
  destruct (string_of_uint_head (Pos.to_uint p) (DecimalPos.Unsigned.to_uint_nonnil p))
    as (c & r & Hs & _ & _).
  unfold ParseUint. rewrite Hs, <- Hs.
  change (2 ^ 64 - 1) with (2 ^ 64 - 1).
  rewrite parseUintLoop_digits by lia. rewrite Hv. reflexivity.
Qed.

(** Reading back what [Itoa] printed gives the number printed. *)
Lemma Atoi_Itoa z : int64 z -> Atoi (Itoa z) = (z, None).
Proof.
  unfold int64. intros Hz. destruct z as [|p|p].
  - reflexivity.
  - unfold Itoa. cbn [Z.to_int NilZero.string_of_int].
    assert (Hnil := DecimalPos.Unsigned.to_uint_nonnil p).
    assert (Hs : NilZero.string_of_uint (Pos.to_uint p)
                 = NilEmpty.string_of_uint (Pos.to_uint p))
      by (destruct (Pos.to_uint p); [congruence | reflexivity ..]).
    rewrite Hs.
    destruct (string_of_uint_head _ Hnil) as (c & r & Hcr & Hm & Hp).
    pose proof (ParseUint_to_uint p ltac:(lia)) as HP.
    rewrite Hcr in *. unfold Atoi. rewrite Hm, Hp. cbn [orb negb andb].
    rewrite HP.
    assert (Hle : (2 ^ 63 <=? Z.pos p) = false) by (apply Z.leb_gt; lia).
    rewrite Hle. reflexivity.
  - unfold Itoa. cbn [Z.to_int NilZero.string_of_int].
    assert (Hnil := DecimalPos.Unsigned.to_uint_nonnil p).
    assert (Hs : NilZero.string_of_uint (Pos.to_uint p)
                 = NilEmpty.string_of_uint (Pos.to_uint p))
      by (destruct (Pos.to_uint p); [congruence | reflexivity ..]).
    rewrite Hs.
    pose proof (ParseUint_to_uint p ltac:(lia)) as HP.
    unfold Atoi. cbn [Ascii.eqb Ascii.eqb orb negb andb Bool.eqb].
    rewrite HP.
    assert (Hlt : (2 ^ 63 <? Z.pos p) = false) by (apply Z.ltb_ge; lia).
    cbn [negb andb]. rewrite Hlt. reflexivity.
Qed.

(** ** Facts about the stub *)

Lemma PutState_accepted stub k v :
  Refuses stub k = false -> PutState stub k v = (recordWrite stub k v, None).
Proof. intros H. unfold PutState. now rewrite H. Qed.

Lemma PutState_refused stub k v :
  Refuses stub k = true -> PutState stub k v = (stub, Some (KeyRefused k)).
Proof. intros H. unfold PutState. now rewrite H. Qed.

Lemma Itoa_nonempty z : Itoa z <> "".
Proof.
  unfold Itoa. destruct z as [|p|p]; cbn [Z.to_int NilZero.string_of_int].
  - discriminate.
  - pose proof (DecimalPos.Unsigned.to_uint_nonnil p) as Hnil.
    destruct (Pos.to_uint p); [congruence | discriminate ..].
  - discriminate.
Qed.

Lemma GetState_recordWrite_value stub k v :
  v <> "" -> GetState (recordWrite stub k v) k = Some v.
Proof.
  intros Hv. unfold GetState, recordWrite, applyWrite. simpl.
  destruct (String.eqb_spec v "") as [E|_]; [contradiction|].
  now rewrite lookup_insert_eq.
Qed.

Lemma GetState_recordWrite_empty stub k :
  GetState (recordWrite stub k "") k = None.
Proof. unfold GetState, recordWrite, applyWrite. simpl. apply lookup_delete_eq. Qed.

Lemma GetState_recordWrite_eq stub k z :
  GetState (recordWrite stub k (Itoa z)) k = Some (Itoa z).
Proof. apply GetState_recordWrite_value, Itoa_nonempty. Qed.

Lemma GetState_recordWrite_ne stub k k' v :
  k <> k' -> GetState (recordWrite stub k v) k' = GetState stub k'.
Proof.
  intros H. unfold GetState, recordWrite, applyWrite. simpl.
  destruct (String.eqb v ""); [now rewrite lookup_delete_ne | now rewrite lookup_insert_ne].
Qed.

Lemma balanceOf_int64 stub k : int64 (balanceOf stub k).
Proof.
  unfold balanceOf. destruct (GetState stub k).
  - apply Atoi_int64.
  - unfold int64. lia.
Qed.

Lemma balanceOf_recordWrite_eq stub k v :
  int64 v -> balanceOf (recordWrite stub k (Itoa v)) k = v.
Proof.
  intros Hv. unfold balanceOf. rewrite GetState_recordWrite_eq.
  rewrite Atoi_Itoa by assumption. reflexivity.
Qed.

Lemma balanceOf_recordWrite_ne stub k k' v :
  k <> k' -> balanceOf (recordWrite stub k v) k' = balanceOf stub k'.
Proof.
  intros Hne. unfold balanceOf. now rewrite GetState_recordWrite_ne.
Qed.

Lemma balanceOf_SetEvent stub name e k :
  balanceOf (SetEvent stub name e) k = balanceOf stub k.
Proof. reflexivity. Qed.

Lemma balanceOf_stored stub k b :
  GetState stub k = Some b -> balanceOf stub k = fst (Atoi b).
Proof. unfold balanceOf. intros ->. reflexivity. Qed.

Lemma length_append (s1 s2 : string) :
  String.length (s1 ++ s2) = (String.length s1 + String.length s2)%nat.
Proof. induction s1 as [|c s1 IH]; simpl; [reflexivity | now rewrite IH]. Qed.

(** The allowance key is longer than the owner's key, so the two differ. *)
Lemma allowanceKey_owner owner spender :
  Peer.allowancePrefix ++ owner ++ spender <> owner.
Proof.
  intros H. apply (f_equal String.length) in H.
  rewrite !length_append in H. simpl in H. lia.
Qed.

Lemma allowanceKey_nonempty owner spender :
  Peer.allowancePrefix ++ owner ++ spender <> "".
Proof. discriminate. Qed.

(** ** Transfer, src/token-erc-20_peer.go *)

(** Past the checks, Transfer writes the debit; what follows depends on
    the host's answer for the recipient's key. *)
Lemma Transfer_debit_written stub from to a amount fb :
  Atoi a = (amount, None) ->
  GetState stub from = Some fb ->
  amount <= fst (Atoi fb) ->
  Refuses stub from = false ->
  let debited :=
    recordWrite stub from (Itoa (wrap64 (balanceOf stub from - amount))) in
  Peer.Transfer stub [from; to; a] =
    if Refuses stub to then (ErrorOf (KeyRefused to), debited)
    else
      (Success None,
       SetEvent
         (recordWrite debited to (Itoa (wrap64 (balanceOf stub to + amount))))
         "Transfer" {| From := from; To := to; Value := amount |}).
Proof.
  intros Ha Hf Hle Hrf debited. subst debited.
  unfold Peer.Transfer, balanceOf. rewrite Ha, Hf.
  assert (E : (fst (Atoi fb) <? amount) = false) by (apply Z.ltb_ge; lia).
  rewrite E. cbv zeta.
  rewrite (PutState_accepted _ _ _ Hrf).
  unfold PutState. cbn [Refuses recordWrite].
  destruct (Refuses stub to); reflexivity.
Qed.

Lemma Transfer_sufficient stub from to a amount fb :
  Atoi a = (amount, None) ->
  GetState stub from = Some fb ->
  amount <= fst (Atoi fb) ->
  Refuses stub from = false ->
  Refuses stub to = false ->
  Peer.Transfer stub [from; to; a] =
    (Success None,
     SetEvent
       (recordWrite
          (recordWrite stub from (Itoa (wrap64 (balanceOf stub from - amount))))
          to (Itoa (wrap64 (balanceOf stub to + amount))))
       "Transfer" {| From := from; To := to; Value := amount |}).
Proof.
  intros Ha Hf Hle Hrf Hrt.
  rewrite (Transfer_debit_written _ _ _ _ _ _ Ha Hf Hle Hrf). now rewrite Hrt.
Qed.

Lemma Transfer_insufficient stub from to a amount fb :
  Atoi a = (amount, None) ->
  GetState stub from = Some fb ->
  fst (Atoi fb) < amount ->
  Peer.Transfer stub [from; to; a] = (Error "Insufficient balance", stub).
Proof.
  intros Ha Hf Hlt. unfold Peer.Transfer. rewrite Ha, Hf.
  assert (E : (fst (Atoi fb) <? amount) = true) by (apply Z.ltb_lt; lia).
  rewrite E. reflexivity.
Qed.

(** Between two different accounts, and while the credited sum stays a
    64-bit integer, a transfer debits, credits and conserves. *)
Lemma Transfer_distinct_accounts stub from to a amount fb :
  Atoi a = (amount, None) ->
  GetState stub from = Some fb ->
  Refuses stub from = false ->
  Refuses stub to = false ->
  from <> to ->
  amount <= balanceOf stub from ->
  int64 (balanceOf stub from - amount) ->
  int64 (balanceOf stub to + amount) ->
  let stub' := snd (Peer.Transfer stub [from; to; a]) in
  balanceOf stub' from = balanceOf stub from - amount /\
  balanceOf stub' to = balanceOf stub to + amount /\
  balanceOf stub' from + balanceOf stub' to
    = balanceOf stub from + balanceOf stub to.
Proof.
  intros Ha Hf Hrf Hrt Hne Hle Hd Hc.
  rewrite (balanceOf_stored _ _ _ Hf) in Hle.
  rewrite (Transfer_sufficient _ _ _ _ _ _ Ha Hf Hle Hrf Hrt). cbn [snd].
  rewrite !balanceOf_SetEvent.
  rewrite (balanceOf_recordWrite_ne _ to from) by congruence.
  rewrite !wrap64_id by assumption.
  rewrite !balanceOf_recordWrite_eq by assumption.
  lia.
Qed.

(** When sender and recipient are the same account, the credit computed
    from the balance read before the debit is written last. *)
Lemma Transfer_same_account stub acct a amount fb :
  Atoi a = (amount, None) ->
  GetState stub acct = Some fb ->
  Refuses stub acct = false ->
  amount <= balanceOf stub acct ->
  balanceOf (snd (Peer.Transfer stub [acct; acct; a])) acct
    = wrap64 (balanceOf stub acct + amount).
Proof.
  intros Ha Hf Hr Hle.
  rewrite (balanceOf_stored _ _ _ Hf) in Hle.
  rewrite (Transfer_sufficient _ _ _ _ _ _ Ha Hf Hle Hr Hr). cbn [snd].
  rewrite balanceOf_SetEvent.
  apply balanceOf_recordWrite_eq, wrap64_range.
Qed.

(** C1: Transfer with a sufficient sender balance debits the sender,
    credits the recipient and conserves the sum of the two balances, also
    when sender and recipient are the same address.  The run below is the
    self-transfer: account A holds 100 and sends 30 to itself; the
    invocation succeeds and A then holds 130, so the balance has grown by
    the amount instead of staying the same. *)
Theorem C1_Transfer_to_self_creates_tokens :
  let stub := ledger [("A", "100")] in
  let r := Peer.Transfer stub ["A"; "A"; "30"] in
  fst r = Success None /\
  balanceOf stub "A" = 100 /\
  balanceOf (snd r) "A" = 130 /\
  Writes (snd r) = [("A", "130"); ("A", "70")].
Proof. vm_compute. repeat split; reflexivity. Qed.

(** ** TransferFrom, src/token-erc-20_peer.go *)

(** Past the checks, TransferFrom writes the owner's debit; what follows
    depends on the host's answer for the recipient's key. *)
Lemma TransferFrom_debit_written stub owner spender to a amount ab fb :
  Atoi a = (amount, None) ->
  GetState stub (Peer.allowancePrefix ++ owner ++ spender) = Some ab ->
  GetState stub owner = Some fb ->
  amount <= fst (Atoi ab) ->
  amount <= fst (Atoi fb) ->
  Refuses stub owner = false ->
  Refuses stub (Peer.allowancePrefix ++ owner ++ spender) = false ->
  let debited :=
    recordWrite stub owner (Itoa (wrap64 (balanceOf stub owner - amount))) in
  Peer.TransferFrom stub [owner; spender; to; a] =
    if Refuses stub to then (ErrorOf (KeyRefused to), debited)
    else
      (Success None,
       SetEvent
         (recordWrite
            (recordWrite debited to (Itoa (wrap64 (balanceOf stub to + amount))))
            (Peer.allowancePrefix ++ owner ++ spender)
            (Itoa (wrap64 (allowanceOf stub owner spender - amount))))
         "Transfer" {| From := owner; To := to; Value := amount |}).
Proof.
  intros Ha Hk Hf Hla Hlb Hro Hrk debited. subst debited.
  unfold Peer.TransferFrom, allowanceOf, balanceOf. rewrite Ha. cbv zeta.
  rewrite Hk, Hf.
  assert (E1 : (fst (Atoi ab) <? amount) = false) by (apply Z.ltb_ge; lia).
  assert (E2 : (fst (Atoi fb) <? amount) = false) by (apply Z.ltb_ge; lia).
  rewrite E1, E2.
  rewrite (PutState_accepted _ _ _ Hro).
  unfold PutState. cbn [Refuses recordWrite].
  destruct (Refuses stub to); [reflexivity|].
  cbn [Refuses recordWrite]. rewrite Hrk. reflexivity.
Qed.

Lemma TransferFrom_sufficient stub owner spender to a amount ab fb :
  Atoi a = (amount, None) ->
  GetState stub (Peer.allowancePrefix ++ owner ++ spender) = Some ab ->
  GetState stub owner = Some fb ->
  amount <= fst (Atoi ab) ->
  amount <= fst (Atoi fb) ->
  Refuses stub owner = false ->
  Refuses stub to = false ->
  Refuses stub (Peer.allowancePrefix ++ owner ++ spender) = false ->
  Peer.TransferFrom stub [owner; spender; to; a] =
    (Success None,
     SetEvent
       (recordWrite
          (recordWrite
             (recordWrite stub owner (Itoa (wrap64 (balanceOf stub owner - amount))))
             to (Itoa (wrap64 (balanceOf stub to + amount))))
          (Peer.allowancePrefix ++ owner ++ spender)
          (Itoa (wrap64 (allowanceOf stub owner spender - amount))))
       "Transfer" {| From := owner; To := to; Value := amount |}).
Proof.
  intros Ha Hk Hf Hla Hlb Hro Hrt Hrk.
  rewrite (TransferFrom_debit_written _ _ _ _ _ _ _ _ Ha Hk Hf Hla Hlb Hro Hrk).
  now rewrite Hrt.
Qed.

Lemma TransferFrom_allowance_exceeded stub owner spender to a amount ab :
  Atoi a = (amount, None) ->
  GetState stub (Peer.allowancePrefix ++ owner ++ spender) = Some ab ->
  fst (Atoi ab) < amount ->
  Peer.TransferFrom stub [owner; spender; to; a] = (Error "Allowance exceeded", stub).
Proof.
  intros Ha Hk Hlt. unfold Peer.TransferFrom. rewrite Ha. cbv zeta. rewrite Hk.
  assert (E : (fst (Atoi ab) <? amount) = true) by (apply Z.ltb_lt; lia).
  rewrite E. reflexivity.
Qed.

Lemma TransferFrom_insufficient_balance stub owner spender to a amount ab fb :
  Atoi a = (amount, None) ->
  GetState stub (Peer.allowancePrefix ++ owner ++ spender) = Some ab ->
  GetState stub owner = Some fb ->
  amount <= fst (Atoi ab) ->
  fst (Atoi fb) < amount ->
  Peer.TransferFrom stub [owner; spender; to; a] = (Error "Insufficient balance", stub).
Proof.
  intros Ha Hk Hf Hla Hlt. unfold Peer.TransferFrom. rewrite Ha. cbv zeta.
  rewrite Hk, Hf.
  assert (E1 : (fst (Atoi ab) <? amount) = false) by (apply Z.ltb_ge; lia).
  assert (E2 : (fst (Atoi fb) <? amount) = true) by (apply Z.ltb_lt; lia).
  rewrite E1, E2. reflexivity.
Qed.

(** With owner, recipient and allowance stored under three different keys
    and the credited sum within 64 bits, TransferFrom moves the amount and
    lowers the allowance by it. *)
Lemma TransferFrom_distinct_keys stub owner spender to a amount ab fb :
  Atoi a = (amount, None) ->
  GetState stub (Peer.allowancePrefix ++ owner ++ spender) = Some ab ->
  GetState stub owner = Some fb ->
  Refuses stub owner = false ->
  Refuses stub to = false ->
  Refuses stub (Peer.allowancePrefix ++ owner ++ spender) = false ->
  amount <= allowanceOf stub owner spender ->
  amount <= balanceOf stub owner ->
  owner <> to ->
  to <> Peer.allowancePrefix ++ owner ++ spender ->
  int64 (balanceOf stub owner - amount) ->
  int64 (balanceOf stub to + amount) ->
  int64 (allowanceOf stub owner spender - amount) ->
  let stub' := snd (Peer.TransferFrom stub [owner; spender; to; a]) in
  balanceOf stub' owner = balanceOf stub owner - amount /\
  balanceOf stub' to = balanceOf stub to + amount /\
  allowanceOf stub' owner spender = allowanceOf stub owner spender - amount.
Proof.
  intros Ha Hk Hf Hro Hrt Hrk Hla Hlb Hot Htk H1 H2 H3.
  unfold allowanceOf in Hla. rewrite (balanceOf_stored _ _ _ Hk) in Hla.
  rewrite (balanceOf_stored _ _ _ Hf) in Hlb.
  rewrite (TransferFrom_sufficient _ _ _ _ _ _ _ _ Ha Hk Hf Hla Hlb Hro Hrt Hrk).
  cbn [snd].
  pose proof (allowanceKey_owner owner spender) as Hko.
  unfold allowanceOf in *.
  rewrite !balanceOf_SetEvent.
  rewrite !wrap64_id by assumption.
  repeat split.
  - rewrite balanceOf_recordWrite_ne by assumption.
    rewrite balanceOf_recordWrite_ne by congruence.
    apply balanceOf_recordWrite_eq; assumption.
  - rewrite balanceOf_recordWrite_ne by congruence.
    apply balanceOf_recordWrite_eq; assumption.
  - apply balanceOf_recordWrite_eq; assumption.
Qed.

(** C2: TransferFrom with sufficient allowance and owner balance lowers the
    owner's balance and the allowance by the amount and raises the
    recipient's balance by it.  First run, peer variant: owner A holds 100,
    B may spend 50, and 30 is moved from A to A; the call succeeds and A
    holds 130 afterwards, so the owner's balance has not gone down.  Second
    run, sc variant, called as [from, to, amount, owner]: the allowance B
    received from A is consumed, yet the account debited is B's, and the
    owner A keeps 100. *)
Theorem C2_TransferFrom_owner_not_debited :
  (let stub := ledger [("A", "100"); ("allowanceAB", "50")] in
   let r := Peer.TransferFrom stub ["A"; "B"; "A"; "30"] in
   fst r = Success None /\
   balanceOf stub "A" = 100 /\
   balanceOf (snd r) "A" = 130 /\
   allowanceOf (snd r) "A" "B" = 20) /\
  (let stub := ledger [("A", "100"); ("B", "40"); ("allowanceAB", "50")] in
   let r := SC.TransferFrom "allowance" stub ["B"; "C"; "30"; "A"] in
   fst r = Success None /\
   balanceOf (snd r) "A" = 100 /\
   balanceOf (snd r) "B" = 10 /\
   balanceOf (snd r) "C" = 30 /\
   allowanceOf (snd r) "A" "B" = 20).
Proof. split; vm_compute; repeat split; reflexivity. Qed.

(** ** Failures leave the stub as it was *)

(** C3: for each of Initialize, Mint, Burn, Transfer, Approve and
    TransferFrom, every prior state and every argument list, an invocation
    that fails with one of the validation messages (argument count,
    argument parsing, insufficient balance, absent or insufficient
    allowance, missing account) returns the stub it was given: no PutState
    and no SetEvent was issued before the failure was detected. *)
Theorem C3_failure_leaves_store_untouched op stub args msg stub' :
  In op mutatingOperations ->
  op stub args = (Error msg, stub') ->
  In msg validationFailures ->
  stub' = stub.
Proof.
  unfold mutatingOperations. simpl In at 1.
  intros [<- | [<- | [<- | [<- | [<- | [<- | []]]]]]] H Hin.
  - unfold Peer.Initialize in H. settle_failure H Hin.
  - unfold Peer.Mint in H. settle_failure H Hin.
  - unfold Peer.Burn in H. settle_failure H Hin.
  - unfold Peer.Transfer in H. settle_failure H Hin.
  - unfold Peer.Approve in H. settle_failure H Hin.
  - unfold Peer.TransferFrom in H. settle_failure H Hin.
Qed.

Lemma C3_failure_leaves_store_untouched_witness :
  In Peer.Burn mutatingOperations /\
  Peer.Burn (ledger [("A", "10")]) ["A"; "30"]
    = (Error "Insufficient balance", ledger [("A", "10")]) /\
  In "Insufficient balance" validationFailures /\
  ledger [("A", "10")] = ledger [("A", "10")].
Proof.
  assert (Hop : In Peer.Burn mutatingOperations) by (simpl; tauto).
  assert (Hrun : Peer.Burn (ledger [("A", "10")]) ["A"; "30"]
                 = (Error "Insufficient balance", ledger [("A", "10")]))
    by reflexivity.
  assert (Hin : In "Insufficient balance" validationFailures) by (simpl; tauto).
  split; [exact Hop|]. split; [exact Hrun|]. split; [exact Hin|].
  exact (C3_failure_leaves_store_untouched Peer.Burn (ledger [("A", "10")])
           ["A"; "30"] "Insufficient balance" (ledger [("A", "10")]) Hop Hrun Hin).
Defined.

(** On a host that refuses no key, whatever invocation does not succeed
    failed one of the validations and returns the stub it was given. *)
Lemma failure_on_accepting_host op stub args r stub' :
  (forall k, Refuses stub k = false) ->
  In op mutatingOperations ->
  op stub args = (r, stub') ->
  (forall payload, r <> Success payload) ->
  stub' = stub /\ exists msg, r = Error msg /\ In msg validationFailures.
Proof.
  unfold mutatingOperations. simpl In at 1.
  intros Hall [<- | [<- | [<- | [<- | [<- | [<- | []]]]]]] H Hr;
    [ unfold Peer.Initialize in H | unfold Peer.Mint in H | unfold Peer.Burn in H
    | unfold Peer.Transfer in H | unfold Peer.Approve in H
    | unfold Peer.TransferFrom in H ];
    unfold PutState in H; break_head H;
    try match goal with
        | E : Refuses _ _ = true |- _ => rewrite Hall in E; discriminate E
        end;
    injection H as <- <-;
    first [ exfalso; eapply Hr; reflexivity
          | split; [reflexivity | eexists; split; [reflexivity | simpl; tauto]] ].
Qed.

(** A refused recipient key makes Transfer fail after the debit has been
    written: such a failure is not one of the validation failures. *)
Lemma Transfer_refused_recipient_after_debit :
  let stub := ledger [("A", "10")] in
  Peer.Transfer stub ["A"; ""; "4"]
    = (ErrorOf (KeyRefused ""), recordWrite stub "A" "6").
Proof. reflexivity. Qed.

(** The sc variant's own Initialize and TransferFrom validate before they
    write as well. *)
Lemma SC_failure_leaves_store_untouched prefix jsonMarshal stub args msg stub' :
  SC.Initialize jsonMarshal stub args = (Error msg, stub') \/
  SC.TransferFrom prefix stub args = (Error msg, stub') ->
  In msg validationFailures ->
  stub' = stub.
Proof.
  intros [H | H] Hin.
  - unfold SC.Initialize in H. settle_failure H Hin.
  - unfold SC.TransferFrom in H. settle_failure H Hin.
Qed.

(** ** Mint and Burn, src/token-erc-20_peer.go *)

Lemma Mint_run stub minter a amount :
  Atoi a = (amount, None) ->
  Refuses stub minter = false ->
  Peer.Mint stub [minter; a] =
    (Success None,
     SetEvent (recordWrite stub minter (Itoa (wrap64 (balanceOf stub minter + amount))))
       "Transfer" {| From := ""; To := minter; Value := amount |}).
Proof.
  intros Ha Hr. unfold Peer.Mint, balanceOf. rewrite Ha. cbv zeta.
  rewrite (PutState_accepted _ _ _ Hr). reflexivity.
Qed.

Lemma Burn_run stub minter a amount b :
  Atoi a = (amount, None) ->
  GetState stub minter = Some b ->
  amount <= fst (Atoi b) ->
  Refuses stub minter = false ->
  Peer.Burn stub [minter; a] =
    (Success None,
     SetEvent (recordWrite stub minter (Itoa (wrap64 (balanceOf stub minter - amount))))
       "Transfer" {| From := minter; To := ""; Value := amount |}).
Proof.
  intros Ha Hb Hle Hr. unfold Peer.Burn, balanceOf. rewrite Ha, Hb.
  assert (E : (fst (Atoi b) <? amount) = false) by (apply Z.ltb_ge; lia).
  rewrite E. cbv zeta. rewrite (PutState_accepted _ _ _ Hr). reflexivity.
Qed.

Lemma Burn_insufficient stub minter a amount b :
  Atoi a = (amount, None) ->
  GetState stub minter = Some b ->
  fst (Atoi b) < amount ->
  Peer.Burn stub [minter; a] = (Error "Insufficient balance", stub).
Proof.
  intros Ha Hb Hlt. unfold Peer.Burn. rewrite Ha, Hb.
  assert (E : (fst (Atoi b) <? amount) = true) by (apply Z.ltb_lt; lia).
  rewrite E. reflexivity.
Qed.

(** ** The map-based variant, src/go/token_erc_20.go *)

Lemma parseUintLoop_le maxVal s : forall n v e,
  0 <= maxVal -> n <= maxVal -> parseUintLoop maxVal s n = (v, e) -> v <= maxVal.
Proof.
  induction s as [|c s IH]; simpl; intros n v e Hm Hn H.
  - injection H as <- _. exact Hn.
  - destruct (digitVal c) as [d|].
    + destruct (cutoff10 <=? n); [injection H as <- _; lia|].
      destruct (2 ^ 64 <=? n * 10 + d) eqn:E1; [injection H as <- _; lia|].
      destruct (maxVal <? n * 10 + d) eqn:E2; [injection H as <- _; lia|].
      simpl in H. apply Z.ltb_ge in E2. eapply IH; [exact Hm| |exact H]. lia.
    + injection H as <- _. lia.
Qed.

Lemma ParseUint_uint64 s v e : ParseUint s 64 = (v, e) -> uint64 v.
Proof.
  intros H. split; [eapply ParseUint_nonneg; exact H|].
  unfold ParseUint in H. destruct s as [|c s].
  - injection H as <- _. lia.
  - apply parseUintLoop_le in H; lia.
Qed.

Lemma MapToken_Mint_run stub a amount token :
  ParseUint a 64 = (amount, None) ->
  MapToken.GetState stub "token" = Some token ->
  let creatorHex := MapToken.EncodeToString (MapToken.Creator stub) in
  MapToken.Mint stub [a] =
    (MapToken.Success None,
     MapToken.SetEvent
       (MapToken.PutState stub "token"
          (MapToken.setBalance
             (MapToken.setTotal token (wrapU64 (MapToken.Total token + amount)))
             creatorHex
             (wrapU64 (MapToken.balanceAt token creatorHex + amount))))
       "Transfer" ("Minted " ++ Itoa amount ++ " tokens to " ++ creatorHex)).
Proof. intros Ha Ht. unfold MapToken.Mint. rewrite Ha, Ht. reflexivity. Qed.

Lemma balanceAt_setBalance_eq token k v :
  MapToken.balanceAt (MapToken.setBalance token k v) k = v.
Proof. unfold MapToken.balanceAt, MapToken.setBalance. simpl. now rewrite lookup_insert_eq. Qed.

Lemma balanceAt_setBalance_ne token k k' v :
  k <> k' ->
  MapToken.balanceAt (MapToken.setBalance token k v) k' = MapToken.balanceAt token k'.
Proof.
  intros H. unfold MapToken.balanceAt, MapToken.setBalance. simpl.
  now rewrite lookup_insert_ne.
Qed.

(** The map-based transfer updates the map entry by entry, so a transfer to
    oneself leaves the balance as it was. *)
Lemma MapToken_transfer_to_self stub a amount token :
  ParseUint a 64 = (amount, None) ->
  MapToken.GetState stub "token" = Some token ->
  let sender := MapToken.Creator stub in
  uint64 (MapToken.balanceAt token sender) ->
  amount <= MapToken.balanceAt token sender ->
  exists token',
    MapToken.transfer stub [sender; a]
      = (MapToken.Success None, MapToken.PutState stub "token" token') /\
    MapToken.balanceAt token' sender = MapToken.balanceAt token sender.
Proof.
  intros Ha Ht sender Hu Hle. unfold MapToken.transfer. rewrite Ha, Ht.
  cbv zeta. fold sender. unfold MapToken.GetCreator. fold sender.
  assert (E : (MapToken.balanceAt token sender <? amount) = false)
    by (apply Z.ltb_ge; lia).
  rewrite E. eexists. split; [reflexivity|].
  rewrite !balanceAt_setBalance_eq.
  pose proof (ParseUint_uint64 _ _ _ Ha) as Hamt. unfold uint64 in *.
  rewrite (wrapU64_id (_ - _)) by (unfold uint64; lia).
  rewrite wrapU64_id by (unfold uint64; lia). lia.
Qed.

(** ** C4: Mint *)

(** With totalSupply at 1000, Mint of 5 to A succeeds and totalSupply is
    still 1000. *)
Lemma C4_Mint_leaves_totalSupply_counterexample :
  ~ Mint_raises_balance_and_supply (ledger [("totalSupply", "1000")]) "A" "5" 5.
Proof.
  unfold Mint_raises_balance_and_supply. intros (_ & _ & H & _).
  vm_compute in H. discriminate H.
Qed.

(** C4, as the code has it.  Key-per-account variants: Mint(minter, amount)
    with an amount that parses, on a key the host accepts, succeeds, stores
    for the named minter the old balance plus the amount (exactly so when
    the sum is a 64-bit integer), does not write the totalSupply key, and
    records the Transfer event with an empty from, to = minter,
    value = amount.  Map-based variant: Mint(amount) on an initialised token
    raises Total and the caller's balance by the amount modulo 2^64 (exactly
    so when the sums are below 2^64) and records a Transfer event whose
    payload is the text "Minted <amount> tokens to <caller in hex>". *)
Theorem C4_Mint_balance_supply_event :
  (forall stub minter a amount,
     Atoi a = (amount, None) ->
     Refuses stub minter = false ->
     minter <> Peer.totalSupplyKey ->
     let r := Peer.Mint stub [minter; a] in
     fst r = Success None /\
     balanceOf (snd r) minter = wrap64 (balanceOf stub minter + amount) /\
     (int64 (balanceOf stub minter + amount) ->
      balanceOf (snd r) minter = balanceOf stub minter + amount) /\
     GetState (snd r) Peer.totalSupplyKey = GetState stub Peer.totalSupplyKey /\
     Events (snd r)
       = ("Transfer", {| From := ""; To := minter; Value := amount |}) :: Events stub) /\
  (forall stub a amount token,
     ParseUint a 64 = (amount, None) ->
     MapToken.GetState stub "token" = Some token ->
     let caller := MapToken.EncodeToString (MapToken.Creator stub) in
     let r := MapToken.Mint stub [a] in
     fst r = MapToken.Success None /\
     exists token',
       MapToken.GetState (snd r) "token" = Some token' /\
       MapToken.Total token' = wrapU64 (MapToken.Total token + amount) /\
       MapToken.balanceAt token' caller
         = wrapU64 (MapToken.balanceAt token caller + amount) /\
       (uint64 (MapToken.Total token + amount) ->
        MapToken.Total token' = MapToken.Total token + amount) /\
       (uint64 (MapToken.balanceAt token caller + amount) ->
        MapToken.balanceAt token' caller = MapToken.balanceAt token caller + amount) /\
       MapToken.Events (snd r)
         = ("Transfer", "Minted " ++ Itoa amount ++ " tokens to " ++ caller)
             :: MapToken.Events stub).
Proof.
  split.
  - intros stub minter a amount Ha Hr Hne r. subst r.
    rewrite (Mint_run _ _ _ _ Ha Hr). cbn [fst snd].
    rewrite balanceOf_SetEvent.
    rewrite balanceOf_recordWrite_eq by apply wrap64_range.
    repeat split.
    + intros Hi. now apply wrap64_id.
    + apply (GetState_recordWrite_ne stub minter Peer.totalSupplyKey). exact Hne.
  - intros stub a amount token Ha Ht caller r. subst r.
    rewrite (MapToken_Mint_run _ _ _ _ Ha Ht). cbn [fst snd]. fold caller.
    split; [reflexivity|]. eexists. split.
    + unfold MapToken.GetState, MapToken.SetEvent, MapToken.PutState. simpl.
      apply lookup_insert_eq.
    + rewrite balanceAt_setBalance_eq. simpl.
      repeat split; intros Hu; now apply wrapU64_id.
Qed.

Lemma C4_Mint_balance_supply_event_witness :
  (Atoi "5" = (5, None) /\
   "A" <> Peer.totalSupplyKey /\
   let stub := ledger [("A", "7"); ("totalSupply", "1000")] in
   let r := Peer.Mint stub ["A"; "5"] in
   Refuses stub "A" = false /\
   fst r = Success None /\
   balanceOf (snd r) "A" = 7 + 5 /\
   GetState (snd r) Peer.totalSupplyKey = Some "1000" /\
   Events (snd r) = [("Transfer", {| From := ""; To := "A"; Value := 5 |})]) /\
  (ParseUint "5" 64 = (5, None) /\
   let token := gold [("41", 1000)] 1000 in
   let stub := tokenLedger token "A" in
   let r := MapToken.Mint stub ["5"] in
   MapToken.GetState stub "token" = Some token /\
   fst r = MapToken.Success None /\
   exists token',
     MapToken.GetState (snd r) "token" = Some token' /\
     MapToken.Total token' = 1000 + 5 /\
     MapToken.balanceAt token' "41" = 1000 + 5 /\
     MapToken.Events (snd r) = [("Transfer", "Minted 5 tokens to 41")]).
Proof.
  split.
  - split; [reflexivity|]. split; [discriminate|]. split; [reflexivity|].
    destruct (proj1 C4_Mint_balance_supply_event
                (ledger [("A", "7"); ("totalSupply", "1000")]) "A" "5" 5
                eq_refl eq_refl ltac:(discriminate)) as (H1 & _ & H3 & H4 & H5).
    split; [exact H1|]. split; [|split; [exact H4 | exact H5]].
    apply H3. vm_compute. split; [discriminate | reflexivity].
  - split; [reflexivity|]. split; [reflexivity|].
    destruct (proj2 C4_Mint_balance_supply_event
                (tokenLedger (gold [("41", 1000)] 1000) "A") "5" 5
                (gold [("41", 1000)] 1000) eq_refl eq_refl)
      as (H1 & token' & H2 & _ & _ & H5 & H6 & H7).
    split; [exact H1|]. exists token'. split; [exact H2|].
    split; [apply H5; vm_compute; split; [discriminate | reflexivity]|].
    split; [apply H6; vm_compute; split; [discriminate | reflexivity]|].
    exact H7.
Defined.

(** ** C5: Burn *)

(** With A at 100 and totalSupply at 1000, Burn of 30 from A succeeds and
    totalSupply is still 1000. *)
Lemma C5_Burn_leaves_totalSupply_counterexample :
  ~ Burn_lowers_balance_and_supply
      (ledger [("A", "100"); ("totalSupply", "1000")]) "A" "30" 30.
Proof.
  unfold Burn_lowers_balance_and_supply. intros H.
  assert (Hle : 30 <= balanceOf (ledger [("A", "100"); ("totalSupply", "1000")]) "A")
    by (vm_compute; discriminate).
  destruct (H Hle) as (_ & _ & Hs). vm_compute in Hs. discriminate Hs.
Qed.

(** C5, as the code has it: for an account with a stored balance, on a key
    the host accepts, Burn of an amount between 0 and that balance
    succeeds, lowers the balance by exactly the amount and does not write
    the totalSupply key; Burn of an amount above the balance fails with
    "Insufficient balance" and returns the stub unchanged. *)
Theorem C5_Burn_balance_only stub minter a amount b :
  Atoi a = (amount, None) ->
  GetState stub minter = Some b ->
  Refuses stub minter = false ->
  minter <> Peer.totalSupplyKey ->
  (0 <= amount <= balanceOf stub minter ->
   let r := Peer.Burn stub [minter; a] in
   fst r = Success None /\
   balanceOf (snd r) minter = balanceOf stub minter - amount /\
   GetState (snd r) Peer.totalSupplyKey = GetState stub Peer.totalSupplyKey) /\
  (balanceOf stub minter < amount ->
   Peer.Burn stub [minter; a] = (Error "Insufficient balance", stub)).
Proof.
  intros Ha Hb Hr Hne. pose proof (balanceOf_int64 stub minter) as Hi.
  rewrite (balanceOf_stored _ _ _ Hb) in *. split.
  - intros Hle r. subst r.
    rewrite (Burn_run _ _ _ _ _ Ha Hb) by (lia || assumption). cbn [fst snd].
    rewrite balanceOf_SetEvent, (balanceOf_stored _ _ _ Hb).
    assert (Hd : int64 (fst (Atoi b) - amount)) by (unfold int64 in *; lia).
    rewrite wrap64_id by exact Hd.
    rewrite balanceOf_recordWrite_eq by exact Hd.
    repeat split.
    apply (GetState_recordWrite_ne stub minter Peer.totalSupplyKey). exact Hne.
  - intros Hlt. now apply (Burn_insufficient _ _ _ _ _ Ha Hb).
Qed.

Lemma C5_Burn_balance_only_witness :
  (let stub := ledger [("A", "100"); ("totalSupply", "1000")] in
   let r := Peer.Burn stub ["A"; "30"] in
   0 <= 30 <= balanceOf stub "A" /\
   fst r = Success None /\
   balanceOf (snd r) "A" = balanceOf stub "A" - 30 /\
   GetState (snd r) Peer.totalSupplyKey = GetState stub Peer.totalSupplyKey) /\
  (let stub := ledger [("A", "10"); ("totalSupply", "1000")] in
   balanceOf stub "A" < 30 /\
   Peer.Burn stub ["A"; "30"] = (Error "Insufficient balance", stub)).
Proof.
  split.
  - assert (H : 0 <= 30 <= balanceOf (ledger [("A", "100"); ("totalSupply", "1000")]) "A")
      by (vm_compute; split; discriminate).
    split; [exact H|].
    exact (proj1 (C5_Burn_balance_only
                    (ledger [("A", "100"); ("totalSupply", "1000")])
                    "A" "30" 30 "100" eq_refl eq_refl eq_refl ltac:(discriminate)) H).
  - assert (H : balanceOf (ledger [("A", "10"); ("totalSupply", "1000")]) "A" < 30)
      by reflexivity.
    split; [exact H|].
    exact (proj2 (C5_Burn_balance_only
                    (ledger [("A", "10"); ("totalSupply", "1000")])
                    "A" "30" 30 "10" eq_refl eq_refl eq_refl ltac:(discriminate)) H).
Defined.

(** ** C6: negative amounts *)

(** C6: no operation may leave a negative balance or allowance behind; a
    negative amount has to be rejected.  The runs: Mint of -5 into an empty
    ledger succeeds and stores the balance -5; Approve of -5 succeeds and
    stores the allowance -5; Transfer of -5 from A (holding 0) to B passes
    the balance check and leaves A with 5 and B with -5. *)
Theorem C6_negative_amounts_accepted :
  (let r := Peer.Mint (ledger []) ["A"; "-5"] in
   fst r = Success None /\ balanceOf (snd r) "A" = -5) /\
  (let r := Peer.Approve (ledger []) ["A"; "B"; "-5"] in
   fst r = Success None /\ allowanceOf (snd r) "A" "B" = -5) /\
  (let r := Peer.Transfer (ledger [("A", "0")]) ["A"; "B"; "-5"] in
   fst r = Success None /\ balanceOf (snd r) "A" = 5 /\ balanceOf (snd r) "B" = -5).
Proof. vm_compute. repeat split; reflexivity. Qed.

(** A negative amount minted into an account with no stored balance is
    stored as it is. *)
Lemma Mint_negative_amount stub minter a amount :
  Atoi a = (amount, None) ->
  GetState stub minter = None ->
  Refuses stub minter = false ->
  amount < 0 ->
  balanceOf (snd (Peer.Mint stub [minter; a])) minter = amount /\
  balanceOf (snd (Peer.Mint stub [minter; a])) minter < 0.
Proof.
  intros Ha Hn Hr Hneg. rewrite (Mint_run _ _ _ _ Ha Hr). cbn [snd].
  rewrite balanceOf_SetEvent.
  assert (Hb : balanceOf stub minter = 0) by (unfold balanceOf; now rewrite Hn).
  rewrite Hb. simpl (0 + amount).
  assert (Hi : int64 amount) by (pose proof (Atoi_int64 a) as X; now rewrite Ha in X).
  rewrite wrap64_id by exact Hi.
  rewrite balanceOf_recordWrite_eq by exact Hi. split; [reflexivity | exact Hneg].
Qed.

(** The map-based Mint parses with ParseUint and turns the same request
    down. *)
Lemma MapToken_Mint_rejects_negative stub :
  MapToken.Mint stub ["-5"]
    = (MapToken.Errorf "Invalid amount: %s"
         (MapToken.NumErr "ParseUint" "-5" ErrSyntax), stub).
Proof. reflexivity. Qed.

(** ** C7: additions that leave the 64-bit range *)




(** ** C8: Allowance of a pair never approved *)

(** On an empty ledger Allowance(A, B) does not answer 0. *)
Lemma C8_Allowance_unset_counterexample :
  ~ Allowance_unset_is_zero (ledger []) "A" "B".
Proof.
  unfold Allowance_unset_is_zero. intros H.
  specialize (H eq_refl). vm_compute in H. discriminate H.
Qed.

(** C8, as the code has it: when nothing is stored under the allowance key
    of (owner, spender), Allowance fails with "Allowance not found" and
    returns the stub unchanged. *)
Theorem C8_Allowance_unset_is_an_error stub owner spender :
  GetState stub (Peer.allowancePrefix ++ owner ++ spender) = None ->
  Peer.Allowance stub [owner; spender] = (Error "Allowance not found", stub).
Proof. intros H. unfold Peer.Allowance. cbv zeta. now rewrite H. Qed.

Lemma C8_Allowance_unset_is_an_error_witness :
  GetState (ledger [("A", "100")]) (Peer.allowancePrefix ++ "A" ++ "B") = None /\
  Peer.Allowance (ledger [("A", "100")]) ["A"; "B"]
    = (Error "Allowance not found", ledger [("A", "100")]).
Proof.
  split.
  - reflexivity.
  - apply (C8_Allowance_unset_is_an_error (ledger [("A", "100")]) "A" "B").
    reflexivity.
Defined.

(** ** C9: the empty recipient *)

(** Neither Transfer nor TransferFrom looks at the recipient address.  With
    the empty string as recipient and sufficient balance (and allowance),
    the debit of the sender (owner) is written first.  If the host's
    PutState takes the empty key, the invocation then succeeds and the
    credited balance is stored under the empty key; if the host refuses the
    empty key, the invocation fails with the host's error. *)
Lemma empty_recipient_left_to_the_host :
  (forall stub from a amount fb,
     Atoi a = (amount, None) ->
     GetState stub from = Some fb ->
     amount <= balanceOf stub from ->
     Refuses stub from = false ->
     let r := Peer.Transfer stub [from; ""; a] in
     let debited :=
       recordWrite stub from (Itoa (wrap64 (balanceOf stub from - amount))) in
     if Refuses stub ""
     then r = (ErrorOf (KeyRefused ""), debited)
     else fst r = Success None /\
          GetState (snd r) "" = Some (Itoa (wrap64 (balanceOf stub "" + amount)))) /\
  (forall stub owner spender a amount ab fb,
     Atoi a = (amount, None) ->
     GetState stub (Peer.allowancePrefix ++ owner ++ spender) = Some ab ->
     GetState stub owner = Some fb ->
     amount <= allowanceOf stub owner spender ->
     amount <= balanceOf stub owner ->
     Refuses stub owner = false ->
     Refuses stub (Peer.allowancePrefix ++ owner ++ spender) = false ->
     let r := Peer.TransferFrom stub [owner; spender; ""; a] in
     let debited :=
       recordWrite stub owner (Itoa (wrap64 (balanceOf stub owner - amount))) in
     if Refuses stub ""
     then r = (ErrorOf (KeyRefused ""), debited)
     else fst r = Success None /\
          GetState (snd r) "" = Some (Itoa (wrap64 (balanceOf stub "" + amount)))).
Proof.
  split.
  - intros stub from a amount fb Ha Hf Hle Hrf r debited. subst r debited.
    rewrite (balanceOf_stored _ _ _ Hf) in Hle.
    rewrite (Transfer_debit_written _ _ _ _ _ _ Ha Hf Hle Hrf).
    destruct (Refuses stub ""); [reflexivity|]. cbn [fst snd].
    split; [reflexivity|]. apply GetState_recordWrite_eq.
  - intros stub owner spender a amount ab fb Ha Hk Hf Hla Hlb Hro Hrk r debited.
    subst r debited.
    unfold allowanceOf in Hla. rewrite (balanceOf_stored _ _ _ Hk) in Hla.
    rewrite (balanceOf_stored _ _ _ Hf) in Hlb.
    rewrite (TransferFrom_debit_written _ _ _ _ _ _ _ _ Ha Hk Hf Hla Hlb Hro Hrk).
    destruct (Refuses stub ""); [reflexivity|]. cbn [fst snd].
    split; [reflexivity|].
    change (GetState (SetEvent ?s _ _) ?k) with (GetState s k).
    rewrite GetState_recordWrite_ne by apply allowanceKey_nonempty.
    apply GetState_recordWrite_eq.
Qed.

(** An invocation that wrote to the empty key on a host that refuses it did
    not succeed. *)
Lemma Transfer_fails_on_refused_recipient stub from to a :
  Refuses stub to = true ->
  forall payload, fst (Peer.Transfer stub [from; to; a]) <> Success payload.
Proof.
  intros Hr payload.
  destruct (Peer.Transfer stub [from; to; a]) as [r stub'] eqn:H.
  unfold Peer.Transfer, PutState in H. break_head H;
    injection H as <- <-; cbn [fst]; try discriminate.
  all: cbn [Refuses recordWrite] in *; congruence.
Qed.

Lemma TransferFrom_fails_on_refused_recipient stub owner spender to a :
  Refuses stub to = true ->
  forall payload,
    fst (Peer.TransferFrom stub [owner; spender; to; a]) <> Success payload.
Proof.
  intros Hr payload.
  destruct (Peer.TransferFrom stub [owner; spender; to; a]) as [r stub'] eqn:H.
  unfold Peer.TransferFrom, PutState in H. break_head H;
    injection H as <- <-; cbn [fst]; try discriminate.
  all: cbn [Refuses recordWrite] in *; congruence.
Qed.

(** C9: on a host whose PutState refuses the empty key, as the Fabric shim
    does, every Transfer and every TransferFrom whose recipient argument is
    the empty string is rejected with an error, whatever the other
    arguments and the ledger, and nothing of it is committed: the ledger
    stays as the invocation found it.  The rejection is the host's; the
    chaincode does not look at the recipient. *)
Theorem C9_empty_recipient_rejected stub :
  Refuses stub "" = true ->
  (forall from a,
     let r := Peer.Transfer stub [from; ""; a] in
     ((exists msg, fst r = Error msg) \/ (exists err, fst r = ErrorOf err)) /\
     committed stub r = stub) /\
  (forall owner spender a,
     let r := Peer.TransferFrom stub [owner; spender; ""; a] in
     ((exists msg, fst r = Error msg) \/ (exists err, fst r = ErrorOf err)) /\
     committed stub r = stub).
Proof.
  intros Hr. split.
  - intros from a r. subst r.
    pose proof (Transfer_fails_on_refused_recipient stub from "" a Hr) as Hf.
    unfold committed.
    destruct (fst (Peer.Transfer stub [from; ""; a])) as [payload|msg|err].
    + exfalso. apply (Hf payload). reflexivity.
    + split; [left; eexists; reflexivity | reflexivity].
    + split; [right; eexists; reflexivity | reflexivity].
  - intros owner spender a r. subst r.
    pose proof (TransferFrom_fails_on_refused_recipient stub owner spender "" a Hr)
      as Hf.
    unfold committed.
    destruct (fst (Peer.TransferFrom stub [owner; spender; ""; a]))
      as [payload|msg|err].
    + exfalso. apply (Hf payload). reflexivity.
    + split; [left; eexists; reflexivity | reflexivity].
    + split; [right; eexists; reflexivity | reflexivity].
Qed.

Lemma C9_empty_recipient_rejected_witness :
  let stub := ledger [("A", "10"); ("allowanceAB", "5")] in
  Refuses stub "" = true /\
  fst (Peer.Transfer stub ["A"; ""; "4"]) = ErrorOf (KeyRefused "") /\
  committed stub (Peer.Transfer stub ["A"; ""; "4"]) = stub /\
  fst (Peer.TransferFrom stub ["A"; "B"; ""; "4"]) = ErrorOf (KeyRefused "") /\
  committed stub (Peer.TransferFrom stub ["A"; "B"; ""; "4"]) = stub.
Proof.
  destruct (C9_empty_recipient_rejected
              (ledger [("A", "10"); ("allowanceAB", "5")]) eq_refl) as [H1 H2].
  split; [reflexivity|].
  split; [reflexivity|]. split; [exact (proj2 (H1 "A" "4"))|].
  split; [reflexivity|]. exact (proj2 (H2 "A" "B" "4")).
Defined.

(** ** C10: the balance query of the map-based variant writes *)

(** C10: in the map-based variant, ClientAccountBalance for a caller with
    no entry in the balance map succeeds with "0" after writing the token
    record back with a zero entry for the caller's hex address; the world
    state after the query differs from the one before. *)
Theorem C10_ClientAccountBalance_writes stub token :
  MapToken.GetState stub "token" = Some token ->
  MapToken.Balance token !! MapToken.EncodeToString (MapToken.Creator stub) = None ->
  let caller := MapToken.EncodeToString (MapToken.Creator stub) in
  let token' := MapToken.setBalance token caller 0 in
  let r := MapToken.ClientAccountBalance stub in
  fst r = MapToken.Success (Some "0") /\
  MapToken.State (snd r) = <["token" := token']> (MapToken.State stub) /\
  MapToken.Writes (snd r) = ("token", token') :: MapToken.Writes stub /\
  MapToken.Balance token' !! caller = Some 0 /\
  MapToken.State (snd r) <> MapToken.State stub.
Proof.
  intros Ht Hb caller token' r. subst r.
  unfold MapToken.ClientAccountBalance. rewrite Ht. cbv zeta.
  unfold MapToken.GetCreator. rewrite Hb. fold caller. fold token'.
  cbn [fst snd MapToken.PutState MapToken.State MapToken.Writes].
  assert (Hc : MapToken.Balance token' !! caller = Some 0)
    by (subst token'; simpl; apply lookup_insert_eq).
  repeat split; try assumption.
  intros Heq. apply (f_equal (fun m => m !! "token")) in Heq.
  rewrite lookup_insert_eq in Heq. unfold MapToken.GetState in Ht.
  rewrite Ht in Heq. injection Heq as Heq.
  rewrite Heq in Hc. unfold caller in Hc. rewrite Hb in Hc. discriminate Hc.
Qed.

Lemma C10_ClientAccountBalance_writes_witness :
  MapToken.GetState (tokenLedger (gold [("41", 1000)] 1000) "B") "token"
    = Some (gold [("41", 1000)] 1000) /\
  MapToken.Balance (gold [("41", 1000)] 1000) !! "42" = None /\
  let token := gold [("41", 1000)] 1000 in
  let stub := tokenLedger token "B" in
  let token' := MapToken.setBalance token "42" 0 in
  let r := MapToken.ClientAccountBalance stub in
  fst r = MapToken.Success (Some "0") /\
  MapToken.State (snd r) = <["token" := token']> (MapToken.State stub) /\
  MapToken.Writes (snd r) = ("token", token') :: MapToken.Writes stub /\
  MapToken.Balance token' !! "42" = Some 0 /\
  MapToken.State (snd r) <> MapToken.State stub.
Proof.
  split; [reflexivity|]. split; [reflexivity|].
  apply (C10_ClientAccountBalance_writes
           (tokenLedger (gold [("41", 1000)] 1000) "B") (gold [("41", 1000)] 1000)).
  - reflexivity.
  - reflexivity.
Defined.

(** ** Further consequences *)

(** On a host that refuses no key, a failing Invoke of the peer variant,
    whatever the function name, returns the stub it was given: the queries
    never write and the mutating operations validate first. *)
Lemma Invoke_failure_leaves_store_untouched stub function args r stub' :
  (forall k, Refuses stub k = false) ->
  Peer.Invoke stub function args = (r, stub') ->
  (forall payload, r <> Success payload) ->
  stub' = stub.
Proof.
  unfold Peer.Invoke. intros Hall H Hr.
  repeat match type of H with
         | (if ?b then _ else _) = _ => destruct b
         end;
    [ unfold Peer.Mint in H | unfold Peer.Burn in H | unfold Peer.Transfer in H
    | unfold Peer.BalanceOf in H
    | unfold Peer.ClientAccountBalance, Peer.BalanceOf in H
    | unfold Peer.ClientAccountID in H | unfold Peer.TotalSupply in H
    | unfold Peer.Approve in H | unfold Peer.Allowance in H
    | unfold Peer.TransferFrom in H | unfold Peer.Name in H
    | unfold Peer.Symbol in H | unfold Peer.Initialize in H | idtac ];
    unfold PutState in H; break_head H;
    try match goal with
        | E : Refuses _ _ = true |- _ => rewrite Hall in E; discriminate E
        end;
    injection H as <- <-;
    first [ reflexivity | exfalso; eapply Hr; reflexivity ].
Qed.

(** Approve overwrites: after two approvals the allowance is the second
    amount. *)
Lemma Approve_overwrites stub owner spender a1 a2 amount1 amount2 :
  Atoi a1 = (amount1, None) ->
  Atoi a2 = (amount2, None) ->
  Refuses stub (Peer.allowancePrefix ++ owner ++ spender) = false ->
  let stub1 := snd (Peer.Approve stub [owner; spender; a1]) in
  let stub2 := snd (Peer.Approve stub1 [owner; spender; a2]) in
  allowanceOf stub2 owner spender = amount2.
Proof.
  intros H1 H2 Hr stub1 stub2. subst stub1 stub2.
  unfold Peer.Approve. rewrite H1, H2. cbv zeta.
  rewrite (PutState_accepted _ _ _ Hr). cbn [snd].
  rewrite PutState_accepted by exact Hr. cbn [snd]. unfold allowanceOf.
  apply balanceOf_recordWrite_eq.
  pose proof (Atoi_int64 a2) as X. now rewrite H2 in X.
Qed.

(** The mutating operations of the map-based variant validate before they
    write as well: unless the response is a success, the stub comes back
    as it was. *)
Lemma MapToken_failure_leaves_store_untouched op stub args :
  In op [MapToken.Initialize; MapToken.Mint; MapToken.transfer] ->
  (forall p, fst (op stub args) <> MapToken.Success p) ->
  snd (op stub args) = stub.
Proof.
  simpl. intros [<- | [<- | [<- | []]]] H;
    [ unfold MapToken.Initialize in *
    | unfold MapToken.Mint in *
    | unfold MapToken.transfer in * ];
    cbv zeta in *;
    repeat match goal with
           | |- snd (match ?x with _ => _ end) = _ => destruct x eqn:?
           end;
    try reflexivity;
    exfalso; eapply H; reflexivity.
Qed.

(** * Further properties of the code *)

(** ** The peer variant, src/token-erc-20_peer.go *)

Lemma GetState_SetEvent stub name e k :
  GetState (SetEvent stub name e) k = GetState stub k.
Proof. reflexivity. Qed.

(** X1: Transfer of a non-negative amount between two different accounts,
    with a sufficient sender balance and a credited sum below 2^63,
    succeeds, debits the sender and credits the recipient by the amount,
    keeps the sum of the two balances, leaves every other key as it was and
    records one Transfer event from sender to recipient. *)
Theorem X1_Transfer_moves_tokens stub from to a amount fb :
  Atoi a = (amount, None) ->
  GetState stub from = Some fb ->
  Refuses stub from = false ->
  Refuses stub to = false ->
  from <> to ->
  0 <= amount <= balanceOf stub from ->
  balanceOf stub to + amount < 2 ^ 63 ->
  let r := Peer.Transfer stub [from; to; a] in
  fst r = Success None /\
  balanceOf (snd r) from = balanceOf stub from - amount /\
  balanceOf (snd r) to = balanceOf stub to + amount /\
  balanceOf (snd r) from + balanceOf (snd r) to
    = balanceOf stub from + balanceOf stub to /\
  (forall k, k <> from -> k <> to -> GetState (snd r) k = GetState stub k) /\
  Events (snd r)
    = ("Transfer", {| From := from; To := to; Value := amount |}) :: Events stub.
Proof.
  intros Ha Hf Hrf Hrt Hne Hamt Hsum r.
  pose proof (balanceOf_int64 stub from) as Hif.
  pose proof (balanceOf_int64 stub to) as Hit.
  assert (Hd : int64 (balanceOf stub from - amount)) by (unfold int64 in *; lia).
  assert (Hc : int64 (balanceOf stub to + amount)) by (unfold int64 in *; lia).
  destruct (Transfer_distinct_accounts stub from to a amount fb
              Ha Hf Hrf Hrt Hne ltac:(lia) Hd Hc) as (H1 & H2 & H3).
  assert (Hle : amount <= fst (Atoi fb))
    by (rewrite <- (balanceOf_stored _ _ _ Hf); lia).
  subst r. fold (snd (Peer.Transfer stub [from; to; a])).
  repeat split; try assumption;
    rewrite (Transfer_sufficient _ _ _ _ _ _ Ha Hf Hle Hrf Hrt); cbn [fst snd];
    try reflexivity.
  intros k Hkf Hkt. rewrite GetState_SetEvent.
  rewrite !GetState_recordWrite_ne by congruence. reflexivity.
Qed.

Lemma X1_Transfer_moves_tokens_witness :
  let stub := ledger [("A", "100"); ("B", "5"); ("C", "9")] in
  let r := Peer.Transfer stub ["A"; "B"; "30"] in
  (0 <= 30 <= balanceOf stub "A" /\ balanceOf stub "B" + 30 < 2 ^ 63) /\
  fst r = Success None /\
  balanceOf (snd r) "A" = 70 /\
  balanceOf (snd r) "B" = 35 /\
  GetState (snd r) "C" = Some "9".
Proof.
  assert (Hamt : 0 <= 30 <= balanceOf (ledger [("A", "100"); ("B", "5"); ("C", "9")]) "A")
    by (vm_compute; split; discriminate).
  assert (Hsum : balanceOf (ledger [("A", "100"); ("B", "5"); ("C", "9")]) "B" + 30 < 2 ^ 63)
    by reflexivity.
  destruct (X1_Transfer_moves_tokens
              (ledger [("A", "100"); ("B", "5"); ("C", "9")]) "A" "B" "30" 30 "100"
              eq_refl eq_refl eq_refl eq_refl ltac:(discriminate) Hamt Hsum)
    as (H1 & H2 & H3 & _ & H5 & _).
  split; [split; [exact Hamt | exact Hsum]|].
  split; [exact H1|]. split; [exact H2|]. split; [exact H3|].
  exact (H5 "C" ltac:(discriminate) ltac:(discriminate)).
Defined.

(** X2: TransferFrom of a non-negative amount within the allowance and the
    owner's balance, with owner, recipient and allowance under three
    different keys and a credited sum below 2^63, succeeds, lowers the
    owner's balance and the allowance by the amount, raises the recipient's
    balance by it, leaves every other key as it was and records one Transfer
    event from owner to recipient. *)
Theorem X2_TransferFrom_moves_tokens stub owner spender to a amount ab fb :
  Atoi a = (amount, None) ->
  GetState stub (Peer.allowancePrefix ++ owner ++ spender) = Some ab ->
  GetState stub owner = Some fb ->
  Refuses stub owner = false ->
  Refuses stub to = false ->
  Refuses stub (Peer.allowancePrefix ++ owner ++ spender) = false ->
  owner <> to ->
  to <> Peer.allowancePrefix ++ owner ++ spender ->
  0 <= amount <= allowanceOf stub owner spender ->
  amount <= balanceOf stub owner ->
  balanceOf stub to + amount < 2 ^ 63 ->
  let r := Peer.TransferFrom stub [owner; spender; to; a] in
  fst r = Success None /\
  balanceOf (snd r) owner = balanceOf stub owner - amount /\
  balanceOf (snd r) to = balanceOf stub to + amount /\
  allowanceOf (snd r) owner spender = allowanceOf stub owner spender - amount /\
  (forall k, k <> owner -> k <> to ->
             k <> Peer.allowancePrefix ++ owner ++ spender ->
             GetState (snd r) k = GetState stub k) /\
  Events (snd r)
    = ("Transfer", {| From := owner; To := to; Value := amount |}) :: Events stub.
Proof.
  intros Ha Hk Hf Hro Hrt Hrk Hot Htk Hamt Hbal Hsum r.
  pose proof (balanceOf_int64 stub owner) as Hio.
  pose proof (balanceOf_int64 stub to) as Hit.
  pose proof (balanceOf_int64 stub (Peer.allowancePrefix ++ owner ++ spender)) as Hia.
  fold (allowanceOf stub owner spender) in Hia.
  assert (H1 : int64 (balanceOf stub owner - amount)) by (unfold int64 in *; lia).
  assert (H2 : int64 (balanceOf stub to + amount)) by (unfold int64 in *; lia).
  assert (H3 : int64 (allowanceOf stub owner spender - amount))
    by (unfold int64 in *; lia).
  destruct (TransferFrom_distinct_keys stub owner spender to a amount ab fb
              Ha Hk Hf Hro Hrt Hrk ltac:(lia) Hbal Hot Htk H1 H2 H3)
    as (R1 & R2 & R3).
  assert (Hla : amount <= fst (Atoi ab)).
  { unfold allowanceOf in Hamt. rewrite (balanceOf_stored _ _ _ Hk) in Hamt. lia. }
  assert (Hlb : amount <= fst (Atoi fb))
    by (rewrite <- (balanceOf_stored _ _ _ Hf); lia).
  subst r. fold (snd (Peer.TransferFrom stub [owner; spender; to; a])).
  repeat split; try assumption;
    rewrite (TransferFrom_sufficient _ _ _ _ _ _ _ _ Ha Hk Hf Hla Hlb Hro Hrt Hrk);
    cbn [fst snd]; try reflexivity.
  intros k K1 K2 K3. rewrite GetState_SetEvent.
  rewrite !GetState_recordWrite_ne by congruence. reflexivity.
Qed.

Lemma X2_TransferFrom_moves_tokens_witness :
  let stub := ledger [("A", "100"); ("C", "1"); ("allowanceAB", "50")] in
  let r := Peer.TransferFrom stub ["A"; "B"; "C"; "30"] in
  (0 <= 30 <= allowanceOf stub "A" "B" /\ 30 <= balanceOf stub "A" /\
   balanceOf stub "C" + 30 < 2 ^ 63) /\
  fst r = Success None /\
  balanceOf (snd r) "A" = 70 /\
  balanceOf (snd r) "C" = 31 /\
  allowanceOf (snd r) "A" "B" = 20.
Proof.
  assert (Hamt : 0 <= 30 <= allowanceOf
            (ledger [("A", "100"); ("C", "1"); ("allowanceAB", "50")]) "A" "B")
    by (vm_compute; split; discriminate).
  assert (Hbal : 30 <= balanceOf
            (ledger [("A", "100"); ("C", "1"); ("allowanceAB", "50")]) "A")
    by (vm_compute; discriminate).
  assert (Hsum : balanceOf
            (ledger [("A", "100"); ("C", "1"); ("allowanceAB", "50")]) "C" + 30 < 2 ^ 63)
    by reflexivity.
  destruct (X2_TransferFrom_moves_tokens
              (ledger [("A", "100"); ("C", "1"); ("allowanceAB", "50")])
              "A" "B" "C" "30" 30 "50" "100"
              eq_refl eq_refl eq_refl eq_refl eq_refl eq_refl
              ltac:(discriminate) ltac:(discriminate) Hamt Hbal Hsum)
    as (H1 & H2 & H3 & H4 & _).
  split; [split; [exact Hamt | split; [exact Hbal | exact Hsum]]|].
  split; [exact H1|]. split; [exact H2|]. split; [exact H3 | exact H4].
Defined.

(** X3: whatever the function name, the arguments, the prior state and the
    outcome, an invocation of the peer variant changes no key other than
    those its arguments name: the account of Mint and Burn, the two accounts
    of Transfer, the allowance key of Approve, owner, recipient and allowance
    key of TransferFrom, the four metadata keys of Initialize. *)
Theorem X3_Invoke_changes_named_keys_only stub function args k :
  ~ In k (namedKeys function args) ->
  GetState (snd (Peer.Invoke stub function args)) k = GetState stub k.
Proof.
  unfold Peer.Invoke, namedKeys. intros Hk.
  by_function function; simpl in Hk;
    try reflexivity;
    run_branches
      ltac:(fun H => unfold Peer.Mint, Peer.Burn, Peer.Transfer,
                       Peer.ClientAccountBalance, Peer.BalanceOf, Peer.ClientAccountID,
                       Peer.TotalSupply, Peer.Approve, Peer.Allowance,
                       Peer.TransferFrom, Peer.Name, Peer.Symbol,
                       Peer.Initialize in H) H;
    simpl in Hk;
    rewrite ?GetState_SetEvent;
    rewrite ?GetState_recordWrite_ne
      by (intros E; apply Hk; rewrite <- E; simpl; tauto);
    reflexivity.
Qed.

Lemma X3_Invoke_changes_named_keys_only_witness :
  let stub := ledger [("A", "100"); ("B", "5"); ("C", "9")] in
  ~ In "C" (namedKeys "Transfer" ["A"; "B"; "30"]) /\
  GetState (snd (Peer.Invoke stub "Transfer" ["A"; "B"; "30"])) "C" = GetState stub "C".
Proof.
  assert (H : ~ In "C" (namedKeys "Transfer" ["A"; "B"; "30"]))
    by (simpl; intros [E | [E | []]]; discriminate E).
  split; [exact H|].
  exact (X3_Invoke_changes_named_keys_only
           (ledger [("A", "100"); ("B", "5"); ("C", "9")]) "Transfer"
           ["A"; "B"; "30"] "C" H).
Defined.

(** X4: whatever allowance was stored before, Approve(owner, spender,
    amount) with an amount that parses, on a key the host accepts, succeeds
    and replaces it: Allowance(owner, spender) then answers the decimal text
    of the amount, and no event is recorded. *)
Theorem X4_Approve_then_Allowance stub owner spender a amount :
  Atoi a = (amount, None) ->
  Refuses stub (Peer.allowancePrefix ++ owner ++ spender) = false ->
  let r := Peer.Approve stub [owner; spender; a] in
  fst r = Success None /\
  Peer.Allowance (snd r) [owner; spender] = (Success (Some (Itoa amount)), snd r) /\
  allowanceOf (snd r) owner spender = amount /\
  Events (snd r) = Events stub.
Proof.
  intros Ha Hr r. subst r. unfold Peer.Approve. rewrite Ha. cbv zeta.
  rewrite (PutState_accepted _ _ _ Hr). cbn [fst snd].
  split; [reflexivity|]. split; [|split; [|reflexivity]].
  - unfold Peer.Allowance. cbv zeta. now rewrite GetState_recordWrite_eq.
  - unfold allowanceOf. apply balanceOf_recordWrite_eq.
    pose proof (Atoi_int64 a) as X. now rewrite Ha in X.
Qed.

Lemma X4_Approve_then_Allowance_witness :
  let stub := ledger [("allowanceAB", "50")] in
  let r := Peer.Approve stub ["A"; "B"; "+007"] in
  Atoi "+007" = (7, None) /\
  fst r = Success None /\
  Peer.Allowance (snd r) ["A"; "B"] = (Success (Some "7"), snd r) /\
  allowanceOf (snd r) "A" "B" = 7.
Proof.
  destruct (X4_Approve_then_Allowance (ledger [("allowanceAB", "50")])
              "A" "B" "+007" 7 eq_refl eq_refl) as (H1 & H2 & H3 & _).
  split; [reflexivity|]. split; [exact H1|]. split; [exact H2 | exact H3].
Defined.

(** X5: the allowance key is the plain concatenation of prefix, owner and
    spender, so two pairs whose concatenations agree share one allowance:
    after Approve for one pair, Allowance for the other answers the same
    amount. *)
Theorem X5_allowance_pairs_collide stub owner spender owner' spender' a amount :
  owner ++ spender = owner' ++ spender' ->
  Atoi a = (amount, None) ->
  Refuses stub (Peer.allowancePrefix ++ owner ++ spender) = false ->
  let stub' := snd (Peer.Approve stub [owner; spender; a]) in
  Peer.Allowance stub' [owner'; spender'] = (Success (Some (Itoa amount)), stub').
Proof.
  intros Hcat Ha Hr stub'. subst stub'.
  unfold Peer.Approve. rewrite Ha. cbv zeta.
  rewrite (PutState_accepted _ _ _ Hr). cbn [snd].
  unfold Peer.Allowance. cbv zeta. rewrite <- Hcat.
  now rewrite GetState_recordWrite_eq.
Qed.

Lemma X5_allowance_pairs_collide_witness :
  let stub' := snd (Peer.Approve (ledger []) ["AB"; "C"; "9"]) in
  "AB" ++ "C" = "A" ++ "BC" /\
  Peer.Allowance stub' ["A"; "BC"] = (Success (Some "9"), stub').
Proof.
  split; [reflexivity|].
  exact (X5_allowance_pairs_collide (ledger []) "AB" "C" "A" "BC" "9" 9
           eq_refl eq_refl eq_refl).
Defined.

(** X6: balances, allowances and metadata live in one key space.  After
    Mint(minter, amount), BalanceOf(minter) answers the new balance in
    decimal; if the minter's name is the allowance key of a pair, Allowance
    of that pair answers the same text; if it is "totalSupply", so does
    TotalSupply. *)
Theorem X6_Mint_reaches_every_reader_of_the_key stub minter a amount :
  Atoi a = (amount, None) ->
  Refuses stub minter = false ->
  let r := Peer.Mint stub [minter; a] in
  let v := Itoa (wrap64 (balanceOf stub minter + amount)) in
  fst r = Success None /\
  Peer.BalanceOf (snd r) [minter] = (Success (Some v), snd r) /\
  (forall owner spender,
     Peer.allowancePrefix ++ owner ++ spender = minter ->
     Peer.Allowance (snd r) [owner; spender] = (Success (Some v), snd r)) /\
  (minter = Peer.totalSupplyKey ->
   forall args, Peer.TotalSupply (snd r) args = (Success (Some v), snd r)).
Proof.
  intros Ha Hr r v. subst r v. rewrite (Mint_run _ _ _ _ Ha Hr). cbn [fst snd].
  split; [reflexivity|]. split; [|split].
  - unfold Peer.BalanceOf. rewrite GetState_SetEvent.
    now rewrite GetState_recordWrite_eq.
  - intros owner spender <-. unfold Peer.Allowance. cbv zeta.
    rewrite GetState_SetEvent. now rewrite GetState_recordWrite_eq.
  - intros -> args. unfold Peer.TotalSupply. rewrite GetState_SetEvent.
    now rewrite GetState_recordWrite_eq.
Qed.

Lemma X6_Mint_reaches_every_reader_of_the_key_witness :
  let r := Peer.Mint (ledger []) ["allowanceAB"; "40"] in
  Atoi "40" = (40, None) /\
  fst r = Success None /\
  Peer.BalanceOf (snd r) ["allowanceAB"] = (Success (Some "40"), snd r) /\
  Peer.Allowance (snd r) ["A"; "B"] = (Success (Some "40"), snd r).
Proof.
  destruct (X6_Mint_reaches_every_reader_of_the_key (ledger []) "allowanceAB" "40" 40
              eq_refl eq_refl) as (H1 & H2 & H3 & _).
  split; [reflexivity|]. split; [exact H1|]. split; [exact H2|].
  exact (H3 "A" "B" eq_refl).
Defined.

(** X7: Mint followed by Burn of the same amount, on an account whose
    balance is not negative and whose raised balance is a 64-bit integer,
    succeeds and gives the balance back; no other key has changed. *)
Theorem X7_Mint_then_Burn_restores stub minter a amount :
  Atoi a = (amount, None) ->
  Refuses stub minter = false ->
  0 <= balanceOf stub minter ->
  int64 (balanceOf stub minter + amount) ->
  let stub1 := snd (Peer.Mint stub [minter; a]) in
  let r := Peer.Burn stub1 [minter; a] in
  fst r = Success None /\
  balanceOf (snd r) minter = balanceOf stub minter /\
  (forall k, k <> minter -> GetState (snd r) k = GetState stub k).
Proof.
  intros Ha Hr Hb Hi stub1 r. subst r stub1.
  rewrite (Mint_run _ _ _ _ Ha Hr). cbn [snd].
  rewrite wrap64_id by exact Hi.
  set (stub1 := SetEvent _ _ _).
  assert (Hs : GetState stub1 minter = Some (Itoa (balanceOf stub minter + amount)))
    by (subst stub1; rewrite GetState_SetEvent; apply GetState_recordWrite_eq).
  assert (Hb1 : balanceOf stub1 minter = balanceOf stub minter + amount)
    by (rewrite (balanceOf_stored _ _ _ Hs), Atoi_Itoa by exact Hi; reflexivity).
  assert (Hle : amount <= fst (Atoi (Itoa (balanceOf stub minter + amount))))
    by (rewrite Atoi_Itoa by exact Hi; simpl; lia).
  rewrite (Burn_run stub1 minter a amount _ Ha Hs Hle Hr). cbn [fst snd].
  rewrite Hb1. replace (balanceOf stub minter + amount - amount)
    with (balanceOf stub minter) by lia.
  pose proof (balanceOf_int64 stub minter) as Hi0.
  rewrite wrap64_id by exact Hi0.
  split; [reflexivity|]. split.
  - rewrite balanceOf_SetEvent. now apply balanceOf_recordWrite_eq.
  - intros k Hk. rewrite GetState_SetEvent.
    rewrite GetState_recordWrite_ne by congruence.
    subst stub1. rewrite GetState_SetEvent.
    now rewrite GetState_recordWrite_ne by congruence.
Qed.

Lemma X7_Mint_then_Burn_restores_witness :
  let stub := ledger [("A", "100"); ("B", "5")] in
  let r := Peer.Burn (snd (Peer.Mint stub ["A"; "30"])) ["A"; "30"] in
  (0 <= balanceOf stub "A" /\ int64 (balanceOf stub "A" + 30)) /\
  fst r = Success None /\
  balanceOf (snd r) "A" = 100 /\
  GetState (snd r) "B" = Some "5".
Proof.
  assert (Hb : 0 <= balanceOf (ledger [("A", "100"); ("B", "5")]) "A")
    by (vm_compute; discriminate).
  assert (Hi : int64 (balanceOf (ledger [("A", "100"); ("B", "5")]) "A" + 30))
    by (vm_compute; split; [discriminate | reflexivity]).
  destruct (X7_Mint_then_Burn_restores (ledger [("A", "100"); ("B", "5")])
              "A" "30" 30 eq_refl eq_refl Hb Hi) as (H1 & H2 & H3).
  split; [split; [exact Hb | exact Hi]|].
  split; [exact H1|]. split; [exact H2|].
  exact (H3 "B" ltac:(discriminate)).
Defined.

(** X8: a transfer between two different accounts followed by the transfer
    of the same amount back succeeds and restores both balances, when the
    amount is not negative, the sender can pay, the recipient's balance is
    not negative and the credited sum stays below 2^63. *)
Theorem X8_Transfer_there_and_back stub from to a amount fb :
  Atoi a = (amount, None) ->
  GetState stub from = Some fb ->
  Refuses stub from = false ->
  Refuses stub to = false ->
  from <> to ->
  0 <= amount <= balanceOf stub from ->
  0 <= balanceOf stub to ->
  balanceOf stub to + amount < 2 ^ 63 ->
  let stub1 := snd (Peer.Transfer stub [from; to; a]) in
  let r := Peer.Transfer stub1 [to; from; a] in
  fst r = Success None /\
  balanceOf (snd r) from = balanceOf stub from /\
  balanceOf (snd r) to = balanceOf stub to.
Proof.
  intros Ha Hf Hrf Hrt Hne Hamt Htb Hsum stub1 r.
  pose proof (balanceOf_int64 stub from) as Hif.
  pose proof (balanceOf_int64 stub to) as Hit.
  assert (Hd : int64 (balanceOf stub from - amount)) by (unfold int64 in *; lia).
  assert (Hc : int64 (balanceOf stub to + amount)) by (unfold int64 in *; lia).
  destruct (Transfer_distinct_accounts stub from to a amount fb
              Ha Hf Hrf Hrt Hne ltac:(lia) Hd Hc) as (B1 & B2 & _).
  fold stub1 in B1, B2.
  assert (Hle : amount <= fst (Atoi fb))
    by (rewrite <- (balanceOf_stored _ _ _ Hf); lia).
  assert (Hs1 : GetState stub1 to
                = Some (Itoa (wrap64 (balanceOf stub to + amount)))).
  { subst stub1. rewrite (Transfer_sufficient _ _ _ _ _ _ Ha Hf Hle Hrf Hrt).
    cbn [snd]. rewrite GetState_SetEvent. apply GetState_recordWrite_eq. }
  assert (Hr1 : Refuses stub1 = Refuses stub).
  { subst stub1. rewrite (Transfer_sufficient _ _ _ _ _ _ Ha Hf Hle Hrf Hrt).
    reflexivity. }
  assert (Hrt1 : Refuses stub1 to = false) by (now rewrite Hr1).
  assert (Hrf1 : Refuses stub1 from = false) by (now rewrite Hr1).
  assert (Hle1 : amount <= fst (Atoi (Itoa (wrap64 (balanceOf stub to + amount))))).
  { rewrite <- (balanceOf_stored _ _ _ Hs1), B2. lia. }
  destruct (Transfer_distinct_accounts stub1 to from a amount _
              Ha Hs1 Hrt1 Hrf1 ltac:(congruence)
              ltac:(rewrite B2; lia)
              ltac:(rewrite B2; unfold int64 in *; lia)
              ltac:(rewrite B1; unfold int64 in *; lia)) as (C1 & C2 & _).
  subst r. split.
  - now rewrite (Transfer_sufficient _ _ _ _ _ _ Ha Hs1 Hle1 Hrt1 Hrf1).
  - split; [rewrite C2, B1 | rewrite C1, B2]; lia.
Qed.

Lemma X8_Transfer_there_and_back_witness :
  let stub := ledger [("A", "100"); ("B", "5")] in
  let r := Peer.Transfer (snd (Peer.Transfer stub ["A"; "B"; "30"])) ["B"; "A"; "30"] in
  (0 <= 30 <= balanceOf stub "A" /\ 0 <= balanceOf stub "B" /\
   balanceOf stub "B" + 30 < 2 ^ 63) /\
  fst r = Success None /\
  balanceOf (snd r) "A" = balanceOf stub "A" /\
  balanceOf (snd r) "B" = balanceOf stub "B".
Proof.
  assert (H1 : 0 <= 30 <= balanceOf (ledger [("A", "100"); ("B", "5")]) "A")
    by (vm_compute; split; discriminate).
  assert (H2 : 0 <= balanceOf (ledger [("A", "100"); ("B", "5")]) "B")
    by (vm_compute; discriminate).
  assert (H3 : balanceOf (ledger [("A", "100"); ("B", "5")]) "B" + 30 < 2 ^ 63)
    by reflexivity.
  split; [split; [exact H1 | split; [exact H2 | exact H3]]|].
  exact (X8_Transfer_there_and_back (ledger [("A", "100"); ("B", "5")])
           "A" "B" "30" 30 "100" eq_refl eq_refl eq_refl eq_refl
           ltac:(discriminate) H1 H2 H3).
Defined.

Lemma Initialize_run stub name symbol d t decimals totalSupply :
  Atoi d = (decimals, None) ->
  Atoi t = (totalSupply, None) ->
  Refuses stub Peer.nameKey = false ->
  Refuses stub Peer.symbolKey = false ->
  Refuses stub Peer.decimalsKey = false ->
  Refuses stub Peer.totalSupplyKey = false ->
  Peer.Initialize stub [name; symbol; d; t] =
    (Success None,
     recordWrite
       (recordWrite
          (recordWrite (recordWrite stub Peer.nameKey name) Peer.symbolKey symbol)
          Peer.decimalsKey (Itoa decimals))
       Peer.totalSupplyKey (Itoa totalSupply)).
Proof.
  intros Hd Ht R1 R2 R3 R4. unfold Peer.Initialize. rewrite Hd, Ht.
  rewrite (PutState_accepted _ _ _ R1).
  rewrite PutState_accepted by exact R2.
  rewrite PutState_accepted by exact R3.
  rewrite PutState_accepted by exact R4. reflexivity.
Qed.

(** X9: Initialize takes any decimals and total supply that parse as 64-bit
    integers, negative ones included, and whatever was stored before.  On a
    host that accepts the four metadata keys it succeeds; afterwards
    TotalSupply answers the decimal text of the supply, the decimals are
    stored in decimal, Name and Symbol answer the name and the symbol when
    these are not empty, no event is recorded and no other key has changed:
    no balance is credited.  An empty name or symbol is a write of an empty
    value, which the host takes for a deletion: Name then fails with
    "Token name not set" and Symbol with "Token symbol not set". *)
Theorem X9_Initialize_sets_metadata_only stub name symbol d t decimals totalSupply :
  Atoi d = (decimals, None) ->
  Atoi t = (totalSupply, None) ->
  Refuses stub Peer.nameKey = false ->
  Refuses stub Peer.symbolKey = false ->
  Refuses stub Peer.decimalsKey = false ->
  Refuses stub Peer.totalSupplyKey = false ->
  let r := Peer.Initialize stub [name; symbol; d; t] in
  fst r = Success None /\
  (forall args,
     Peer.Name (snd r) args
       = (if String.eqb name "" then Error "Token name not set"
          else Success (Some name), snd r)) /\
  (forall args,
     Peer.Symbol (snd r) args
       = (if String.eqb symbol "" then Error "Token symbol not set"
          else Success (Some symbol), snd r)) /\
  (forall args,
     Peer.TotalSupply (snd r) args = (Success (Some (Itoa totalSupply)), snd r)) /\
  GetState (snd r) Peer.decimalsKey = Some (Itoa decimals) /\
  Events (snd r) = Events stub /\
  (forall k, ~ In k [Peer.nameKey; Peer.symbolKey; Peer.decimalsKey;
                     Peer.totalSupplyKey] ->
             GetState (snd r) k = GetState stub k).
Proof.
  intros Hd Ht R1 R2 R3 R4 r. subst r.
  rewrite (Initialize_run _ _ _ _ _ _ _ Hd Ht R1 R2 R3 R4). cbn [fst snd].
  split; [reflexivity|].
  split.
  { intros args. unfold Peer.Name.
    rewrite !GetState_recordWrite_ne by discriminate.
    destruct (String.eqb_spec name "") as [-> | Hn].
    - now rewrite GetState_recordWrite_empty.
    - now rewrite GetState_recordWrite_value. }
  split.
  { intros args. unfold Peer.Symbol.
    rewrite !GetState_recordWrite_ne by discriminate.
    destruct (String.eqb_spec symbol "") as [-> | Hn].
    - now rewrite GetState_recordWrite_empty.
    - now rewrite GetState_recordWrite_value. }
  split; [intros args; unfold Peer.TotalSupply;
          now rewrite GetState_recordWrite_eq|].
  split; [rewrite GetState_recordWrite_ne by discriminate;
          apply GetState_recordWrite_eq|].
  split; [reflexivity|].
  intros k Hk.
  rewrite !GetState_recordWrite_ne
    by (intros E; apply Hk; rewrite <- E; simpl; tauto).
  reflexivity.
Qed.

Lemma X9_Initialize_sets_metadata_only_witness :
  let stub := ledger [("A", "100"); ("name", "Old"); ("symbol", "OLD")] in
  let r := Peer.Initialize stub ["Gold"; ""; "-1"; "-1000"] in
  (Atoi "-1" = (-1, None) /\ Atoi "-1000" = (-1000, None)) /\
  fst r = Success None /\
  Peer.Name (snd r) [] = (Success (Some "Gold"), snd r) /\
  Peer.Symbol (snd r) [] = (Error "Token symbol not set", snd r) /\
  Peer.TotalSupply (snd r) [] = (Success (Some "-1000"), snd r) /\
  GetState (snd r) Peer.decimalsKey = Some "-1" /\
  GetState (snd r) "A" = Some "100".
Proof.
  destruct (X9_Initialize_sets_metadata_only
              (ledger [("A", "100"); ("name", "Old"); ("symbol", "OLD")])
              "Gold" "" "-1" "-1000"
              (-1) (-1000) eq_refl eq_refl eq_refl eq_refl eq_refl eq_refl)
    as (H1 & H2 & H3 & H4 & H5 & _ & H7).
  split; [split; reflexivity|].
  split; [exact H1|]. split; [exact (H2 [])|]. split; [exact (H3 [])|].
  split; [exact (H4 [])|]. split; [exact H5|].
  apply (H7 "A"). simpl. intros [E | [E | [E | [E | []]]]]; discriminate E.
Defined.

(** X10: the seven read-only functions of the peer variant, reached through
    Invoke with any arguments and on any state, return the stub they were
    given: no write, no event. *)
Theorem X10_queries_never_write stub function args :
  In function queryFunctions ->
  snd (Peer.Invoke stub function args) = stub.
Proof.
  unfold queryFunctions. simpl In.
  intros [<- | [<- | [<- | [<- | [<- | [<- | [<- | []]]]]]]];
    unfold Peer.Invoke; simpl String.eqb; cbv iota;
    run_branches
      ltac:(fun H => unfold Peer.ClientAccountBalance, Peer.BalanceOf,
                       Peer.ClientAccountID, Peer.TotalSupply, Peer.Allowance,
                       Peer.Name, Peer.Symbol in H) H;
    reflexivity.
Qed.

Lemma X10_queries_never_write_witness :
  In "Allowance" queryFunctions /\
  snd (Peer.Invoke (ledger [("allowanceAB", "50")]) "Allowance" ["A"; "B"])
    = ledger [("allowanceAB", "50")].
Proof.
  assert (H : In "Allowance" queryFunctions) by (simpl; tauto).
  split; [exact H|].
  exact (X10_queries_never_write (ledger [("allowanceAB", "50")]) "Allowance"
           ["A"; "B"] H).
Defined.

(** X11: Invoke of the peer variant with a function name outside its
    thirteen fails with "Invalid function name" and returns the stub it was
    given; the names are compared byte for byte, so the lower-case
    "transfer" of the map-based variant is not a function here. *)
Theorem X11_unknown_function_is_refused stub function args :
  ~ In function peerFunctions ->
  Peer.Invoke stub function args = (Error "Invalid function name", stub).
Proof.
  unfold Peer.Invoke, peerFunctions. intros Hn.
  by_function function;
    first [ exfalso; apply Hn; simpl; tauto | reflexivity ].
Qed.

Lemma X11_unknown_function_is_refused_witness :
  ~ In "transfer" peerFunctions /\
  Peer.Invoke (ledger [("A", "1")]) "transfer" ["B"; "1"]
    = (Error "Invalid function name", ledger [("A", "1")]).
Proof.
  assert (H : ~ In "transfer" peerFunctions)
    by (simpl; intuition discriminate).
  split; [exact H|].
  exact (X11_unknown_function_is_refused (ledger [("A", "1")]) "transfer"
           ["B"; "1"] H).
Defined.

(** X12: an invocation of the peer variant records at most one event.  It
    records one, named "Transfer", exactly when Mint, Burn, Transfer or
    TransferFrom succeeds; Approve and Initialize record none, nor does any
    failing invocation. *)
Theorem X12_one_Transfer_event_on_success stub function args :
  let r := Peer.Invoke stub function args in
  (Events (snd r) = Events stub /\
   (In function ["Mint"; "Burn"; "Transfer"; "TransferFrom"] ->
    forall payload, fst r <> Success payload)) \/
  (fst r = Success None /\
   In function ["Mint"; "Burn"; "Transfer"; "TransferFrom"] /\
   exists e, Events (snd r) = ("Transfer", e) :: Events stub).
Proof.
  unfold Peer.Invoke. cbv zeta.
  by_function function;
    try (left; split; [reflexivity | simpl; intuition discriminate]);
    run_branches
      ltac:(fun H => unfold Peer.Mint, Peer.Burn, Peer.Transfer,
                       Peer.ClientAccountBalance, Peer.BalanceOf,
                       Peer.ClientAccountID, Peer.TotalSupply, Peer.Approve,
                       Peer.Allowance, Peer.TransferFrom, Peer.Name, Peer.Symbol,
                       Peer.Initialize in H) H;
    first [ right; split; [reflexivity|];
            split; [simpl; tauto | eexists; reflexivity]
          | left; split; [reflexivity | simpl; intuition discriminate] ].
Qed.

(** ** The sc variant, src/token-erc-20-sc.go *)

(** X13: the four functions of the sc file that differ in text from the
    peer file or depend on its undeclared prefix give, through Invoke, the
    response and the stub of the peer file: ClientAccountBalance, which
    reads the caller's key itself where the peer file calls BalanceOf, and
    ClientAccountID, for every prefix; Approve and Allowance when the
    prefix is the "allowance" of the peer file. *)
Theorem X13_sc_Invoke_agrees_with_peer prefix jsonMarshal stub function args :
  In function ["ClientAccountBalance"; "ClientAccountID"] \/
  (In function ["Approve"; "Allowance"] /\ prefix = Peer.allowancePrefix) ->
  SC.Invoke prefix jsonMarshal stub function args = Peer.Invoke stub function args.
Proof.
  cbn [In].
  intros [[<- | [<- | []]] | [[<- | [<- | []]] ->]]; reflexivity.
Qed.

Lemma X13_sc_Invoke_agrees_with_peer_witness :
  In "ClientAccountBalance" ["ClientAccountBalance"; "ClientAccountID"] /\
  SC.Invoke "allow" (fun _ => "{}") (ledger [("", "12")]) "ClientAccountBalance" []
    = Peer.Invoke (ledger [("", "12")]) "ClientAccountBalance" [].
Proof.
  assert (H : In "ClientAccountBalance" ["ClientAccountBalance"; "ClientAccountID"])
    by (left; reflexivity).
  split; [exact H|].
  exact (X13_sc_Invoke_agrees_with_peer "allow" (fun _ => "{}")
           (ledger [("", "12")]) "ClientAccountBalance" [] (or_introl H)).
Defined.

(** X14: Initialize of the sc file issues the same writes as Initialize of
    the peer file and fails with the same messages; on success it answers
    with the marshalled token record where the peer file answers with no
    payload.  What it stored cannot be read back by name: Name and Symbol
    are not functions of the sc Invoke. *)
Theorem X14_sc_Initialize_and_metadata prefix jsonMarshal stub args :
  let r := SC.Invoke prefix jsonMarshal stub "Initialize" args in
  let rp := Peer.Invoke stub "Initialize" args in
  snd r = snd rp /\
  (fst r = fst rp \/
   fst rp = Success None /\
   exists name symbol d t,
     args = [name; symbol; d; t] /\
     fst r = Success
               (Some (jsonMarshal
                        {| SC.Name := name; SC.Symbol := symbol;
                           SC.Decimals := fst (Atoi d);
                           SC.TotalSupply := fst (Atoi t) |}))) /\
  (forall stub' args',
     SC.Invoke prefix jsonMarshal stub' "Name" args'
       = (Error "Invalid function name", stub') /\
     SC.Invoke prefix jsonMarshal stub' "Symbol" args'
       = (Error "Invalid function name", stub')).
Proof.
  cbv zeta. split; [|split; [|intros; split; reflexivity]].
  - change (snd (SC.Initialize jsonMarshal stub args)
            = snd (Peer.Initialize stub args)).
    unfold SC.Initialize, Peer.Initialize, PutState.
    repeat (cbv beta iota zeta; cbn [Refuses recordWrite];
            match goal with
            | |- context [if Refuses ?s ?k then _ else _] => destruct (Refuses s k)
            | |- snd (match ?x with _ => _ end) = _ => destruct x
            end); reflexivity.
  - change (fst (SC.Initialize jsonMarshal stub args)
              = fst (Peer.Initialize stub args) \/
            fst (Peer.Initialize stub args) = Success None /\
            exists name symbol d t,
              args = [name; symbol; d; t] /\
              fst (SC.Initialize jsonMarshal stub args)
                = Success
                    (Some (jsonMarshal
                             {| SC.Name := name; SC.Symbol := symbol;
                                SC.Decimals := fst (Atoi d);
                                SC.TotalSupply := fst (Atoi t) |}))).
    unfold SC.Initialize, Peer.Initialize, PutState.
    destruct args as [|name [|symbol [|d [|t [|? ?]]]]]; try (left; reflexivity).
    destruct (Atoi d) as [decimals [e|]] eqn:Hd; [left; reflexivity|].
    destruct (Atoi t) as [totalSupply [e|]] eqn:Ht; [left; reflexivity|].
    cbv beta iota zeta.
    repeat (cbn [Refuses recordWrite];
            match goal with
            | |- context [if Refuses ?s ?k then _ else _] =>
                destruct (Refuses s k); cbv beta iota zeta;
                [left; reflexivity|]
            end).
    right. split; [reflexivity|]. exists name, symbol, d, t.
    split; [reflexivity|]. rewrite Hd, Ht. reflexivity.
Qed.

Lemma SC_TransferFrom_run prefix stub from to a owner amount ab fb :
  Atoi a = (amount, None) ->
  GetState stub (prefix ++ owner ++ from) = Some ab ->
  GetState stub from = Some fb ->
  amount <= fst (Atoi ab) ->
  amount <= fst (Atoi fb) ->
  Refuses stub from = false ->
  Refuses stub to = false ->
  Refuses stub (prefix ++ owner ++ from) = false ->
  SC.TransferFrom prefix stub [from; to; a; owner] =
    (Success None,
     SetEvent
       (recordWrite
          (recordWrite
             (recordWrite stub from (Itoa (wrap64 (balanceOf stub from - amount))))
             to (Itoa (wrap64 (balanceOf stub to + amount))))
          (prefix ++ owner ++ from)
          (Itoa (wrap64 (balanceOf stub (prefix ++ owner ++ from) - amount))))
       "Transfer" {| From := from; To := to; Value := amount |}).
Proof.
  intros Ha Hk Hf Hla Hlb Hrf Hrt Hrk.
  unfold SC.TransferFrom, balanceOf. rewrite Ha. cbv zeta. rewrite Hk, Hf.
  assert (E1 : (fst (Atoi ab) <? amount) = false) by (apply Z.ltb_ge; lia).
  assert (E2 : (fst (Atoi fb) <? amount) = false) by (apply Z.ltb_ge; lia).
  rewrite E1, E2.
  rewrite (PutState_accepted _ _ _ Hrf).
  rewrite PutState_accepted by exact Hrt.
  rewrite PutState_accepted by exact Hrk. reflexivity.
Qed.

(** X15: TransferFrom of the sc file, called as [from, to, amount, owner]
    with a non-negative amount within the allowance stored for (owner, from)
    and within the balance of [from], the three keys being different,
    succeeds, lowers the balance of [from] and that allowance by the amount,
    raises the balance of [to] by it and changes no other key: the balance
    of an owner other than [from] and [to] stays as it was. *)
Theorem X15_sc_TransferFrom_debits_from prefix stub from to a owner amount ab fb :
  Atoi a = (amount, None) ->
  GetState stub (prefix ++ owner ++ from) = Some ab ->
  GetState stub from = Some fb ->
  Refuses stub from = false ->
  Refuses stub to = false ->
  Refuses stub (prefix ++ owner ++ from) = false ->
  from <> to ->
  from <> prefix ++ owner ++ from ->
  to <> prefix ++ owner ++ from ->
  0 <= amount <= balanceOf stub (prefix ++ owner ++ from) ->
  amount <= balanceOf stub from ->
  balanceOf stub to + amount < 2 ^ 63 ->
  let r := SC.TransferFrom prefix stub [from; to; a; owner] in
  fst r = Success None /\
  balanceOf (snd r) from = balanceOf stub from - amount /\
  balanceOf (snd r) to = balanceOf stub to + amount /\
  balanceOf (snd r) (prefix ++ owner ++ from)
    = balanceOf stub (prefix ++ owner ++ from) - amount /\
  (forall k, k <> from -> k <> to -> k <> prefix ++ owner ++ from ->
             GetState (snd r) k = GetState stub k).
Proof.
  intros Ha Hk Hf Hrf Hrt Hrk Hft Hfk Htk Hamt Hbal Hsum r. subst r.
  pose proof (balanceOf_int64 stub from) as Hif.
  pose proof (balanceOf_int64 stub to) as Hit.
  pose proof (balanceOf_int64 stub (prefix ++ owner ++ from)) as Hia.
  assert (Hla : amount <= fst (Atoi ab))
    by (rewrite <- (balanceOf_stored _ _ _ Hk); lia).
  assert (Hlb : amount <= fst (Atoi fb))
    by (rewrite <- (balanceOf_stored _ _ _ Hf); lia).
  rewrite (SC_TransferFrom_run _ _ _ _ _ _ _ _ _ Ha Hk Hf Hla Hlb Hrf Hrt Hrk).
  cbn [fst snd]. rewrite !balanceOf_SetEvent.
  rewrite !wrap64_id by (unfold int64 in *; lia).
  split; [reflexivity|]. split; [|split; [|split]].
  - rewrite balanceOf_recordWrite_ne by congruence.
    rewrite balanceOf_recordWrite_ne by congruence.
    apply balanceOf_recordWrite_eq. unfold int64 in *; lia.
  - rewrite balanceOf_recordWrite_ne by congruence.
    apply balanceOf_recordWrite_eq. unfold int64 in *; lia.
  - apply balanceOf_recordWrite_eq. unfold int64 in *; lia.
  - intros k K1 K2 K3. rewrite GetState_SetEvent.
    rewrite !GetState_recordWrite_ne by congruence. reflexivity.
Qed.

Lemma X15_sc_TransferFrom_debits_from_witness :
  let stub := ledger [("A", "100"); ("B", "40"); ("allowanceAB", "50")] in
  let r := SC.TransferFrom "allowance" stub ["B"; "C"; "30"; "A"] in
  (0 <= 30 <= balanceOf stub "allowanceAB" /\ 30 <= balanceOf stub "B" /\
   balanceOf stub "C" + 30 < 2 ^ 63) /\
  fst r = Success None /\
  balanceOf (snd r) "B" = balanceOf stub "B" - 30 /\
  balanceOf (snd r) "C" = balanceOf stub "C" + 30 /\
  GetState (snd r) "A" = GetState stub "A".
Proof.
  assert (H1 : 0 <= 30 <= balanceOf
            (ledger [("A", "100"); ("B", "40"); ("allowanceAB", "50")]) "allowanceAB")
    by (vm_compute; split; discriminate).
  assert (H2 : 30 <= balanceOf
            (ledger [("A", "100"); ("B", "40"); ("allowanceAB", "50")]) "B")
    by (vm_compute; discriminate).
  assert (H3 : balanceOf
            (ledger [("A", "100"); ("B", "40"); ("allowanceAB", "50")]) "C" + 30 < 2 ^ 63)
    by reflexivity.
  destruct (X15_sc_TransferFrom_debits_from "allowance"
              (ledger [("A", "100"); ("B", "40"); ("allowanceAB", "50")])
              "B" "C" "30" "A" 30 "50" "40"
              eq_refl eq_refl eq_refl eq_refl eq_refl eq_refl
              ltac:(discriminate) ltac:(discriminate) ltac:(discriminate) H1 H2 H3)
    as (R1 & R2 & R3 & _ & R5).
  split; [split; [exact H1 | split; [exact H2 | exact H3]]|].
  split; [exact R1|]. split; [exact R2|]. split; [exact R3|].
  exact (R5 "A" ltac:(discriminate) ltac:(discriminate) ltac:(discriminate)).
Defined.

(** ** The map-based variants, src/go/token_erc_20.go and src/unnamed/part_000 *)

Lemma sumBalances_insert_fresh (m : gmap string Z) k v :
  m !! k = None -> sumBalances (<[k := v]> m) = v + sumBalances m.
Proof.
  intros Hk. unfold sumBalances.
  apply (map_fold_insert_L (fun _ v acc => v + acc)); [|exact Hk].
  intros. lia.
Qed.

Lemma sumBalances_insert (m : gmap string Z) k v :
  sumBalances (<[k := v]> m) = sumBalances m - default 0 (m !! k) + v.
Proof.
  destruct (m !! k) as [old|] eqn:Hk; cbn [default from_option id].
  - assert (E : sumBalances m = old + sumBalances (delete k m)).
    { rewrite <- (sumBalances_insert_fresh (delete k m) k old)
        by apply lookup_delete_eq.
      now rewrite insert_delete_id. }
    rewrite <- (insert_delete_eq m k v).
    rewrite sumBalances_insert_fresh by apply lookup_delete_eq. lia.
  - rewrite sumBalances_insert_fresh by exact Hk. lia.
Qed.

Lemma tokenOf_PutState stub token :
  tokenOf (MapToken.PutState stub "token" token) = Some token.
Proof. unfold tokenOf, MapToken.GetState. cbn. apply lookup_insert_eq. Qed.

Lemma supply_after_credit token k amount total :
  wrapU64 total = wrapU64 (MapToken.Total token + amount) ->
  supplyMatchesBalances token ->
  supplyMatchesBalances
    (MapToken.setBalance (MapToken.setTotal token total) k
       (wrapU64 (MapToken.balanceAt token k + amount))).
Proof.
  unfold supplyMatchesBalances, MapToken.balanceAt. cbn. intros Ht H.
  rewrite sumBalances_insert. rewrite Ht.
  generalize dependent (sumBalances (MapToken.Balance token)).
  generalize (default 0 (MapToken.Balance token !! k)).
  generalize (MapToken.Total token).
  unfold wrapU64 in *. change (2 ^ 64) with 18446744073709551616 in *.
  intros T b S H. Z.div_mod_to_equations. lia.
Qed.

Lemma supply_after_move token sender receiver amount :
  supplyMatchesBalances token ->
  let debited := MapToken.setBalance token sender
                   (wrapU64 (MapToken.balanceAt token sender - amount)) in
  supplyMatchesBalances
    (MapToken.setBalance debited receiver
       (wrapU64 (MapToken.balanceAt debited receiver + amount))).
Proof.
  unfold supplyMatchesBalances, MapToken.balanceAt. cbn. intros H.
  rewrite !sumBalances_insert.
  generalize (default 0
                (<[sender := wrapU64 (default 0 (MapToken.Balance token !! sender) - amount)]>
                   (MapToken.Balance token) !! receiver)).
  generalize dependent (sumBalances (MapToken.Balance token)).
  generalize (default 0 (MapToken.Balance token !! sender)).
  generalize (MapToken.Total token).
  unfold wrapU64. change (2 ^ 64) with 18446744073709551616.
  intros T b S H x. Z.div_mod_to_equations. lia.
Qed.

Lemma supply_after_entry token k :
  MapToken.Balance token !! k = None ->
  supplyMatchesBalances token ->
  supplyMatchesBalances (MapToken.setBalance token k 0).
Proof.
  unfold supplyMatchesBalances. cbn. intros Hk H.
  rewrite sumBalances_insert, Hk. cbn [default from_option id]. rewrite H. f_equal; lia.
Qed.

Lemma supply_initial nm sym total decimals k :
  supplyMatchesBalances
    (MapToken.setBalance
       {| MapToken.Name := nm; MapToken.Symbol := sym; MapToken.Total := total;
          MapToken.Decimals := decimals; MapToken.Balance := ∅ |} k total).
Proof.
  unfold supplyMatchesBalances. cbn.
  rewrite sumBalances_insert, lookup_empty. cbn [default from_option id].
  unfold sumBalances. rewrite map_fold_empty. f_equal; lia.
Qed.

Lemma keysValid_spec token :
  keysValid token = true <->
  forall k v, MapToken.Balance token !! k = Some v -> utf8.ValidString k = true.
Proof.
  unfold keysValid. rewrite forallb_forall. split.
  - intros H k v Hk. apply (H (k, v)).
    apply list_elem_of_In, elem_of_map_to_list. exact Hk.
  - intros H [k v] Hin. apply list_elem_of_In, elem_of_map_to_list in Hin.
    exact (H k v Hin).
Qed.

Lemma keysValid_setBalance token k v :
  keysValid token = true ->
  utf8.ValidString k = true ->
  keysValid (MapToken.setBalance token k v) = true.
Proof.
  rewrite !keysValid_spec. intros H Hk k' v'. cbn.
  destruct (decide (k = k')) as [<- | Hne].
  - intros _. exact Hk.
  - rewrite lookup_insert_ne by exact Hne. apply H.
Qed.

Lemma keysValid_initial nm sym total decimals k :
  utf8.ValidString k = true ->
  keysValid
    (MapToken.setBalance
       {| MapToken.Name := nm; MapToken.Symbol := sym; MapToken.Total := total;
          MapToken.Decimals := decimals; MapToken.Balance := ∅ |} k total) = true.
Proof.
  intros Hk. apply keysValid_spec. intros k' v'. cbn.
  destruct (decide (k = k')) as [<- | Hne]; [intros _; exact Hk|].
  rewrite lookup_insert_ne by exact Hne. rewrite lookup_empty. discriminate.
Qed.

Lemma hexDigit_ascii n : utf8.between 0 127 (MapToken.hexDigit n) = true.
Proof.
  unfold MapToken.hexDigit.
  repeat match goal with
         | |- context [match ?x with _ => _ end] => destruct x
         end; reflexivity.
Qed.

Lemma runeWidth_ascii c rest :
  utf8.between 0 127 c = true -> utf8.runeWidth (String c rest) = 1%nat.
Proof. intros H. unfold utf8.runeWidth. now rewrite H. Qed.

(** What [hex.EncodeToString] returns is valid UTF-8. *)
Lemma ValidString_EncodeToString s :
  utf8.ValidString (MapToken.EncodeToString s) = true.
Proof.
  unfold utf8.ValidString.
  induction s as [|c s IH]; [reflexivity|].
  cbn [MapToken.EncodeToString utf8.validFrom].
  rewrite runeWidth_ascii by apply hexDigit_ascii. cbn [utf8.validFrom].
  rewrite runeWidth_ascii by apply hexDigit_ascii. exact IH.
Qed.



Lemma length_EncodeToString s :
  String.length (MapToken.EncodeToString s) = (2 * String.length s)%nat.
Proof. induction s as [|c s IH]; cbn [MapToken.EncodeToString String.length]; lia. Qed.

Lemma EncodeToString_differs s : s <> "" -> MapToken.EncodeToString s <> s.
Proof.
  intros Hs E. apply (f_equal String.length) in E.
  rewrite length_EncodeToString in E. destruct s; [congruence|].
  cbn [String.length] in E. lia.
Qed.

Lemma EncodeToString_nonempty s : s <> "" -> MapToken.EncodeToString s <> "".
Proof. destruct s; [congruence|]. discriminate. Qed.

Lemma MapToken_Initialize_run stub nm sym t d total decimals :
  ParseUint t 64 = (total, None) ->
  ParseUint d 8 = (decimals, None) ->
  MapToken.Initialize stub [nm; sym; t; d] =
    (MapToken.Success None,
     MapToken.PutState stub "token"
       {| MapToken.Name := nm; MapToken.Symbol := sym; MapToken.Total := total;
          MapToken.Decimals := decimals;
          MapToken.Balance :=
            <[MapToken.EncodeToString (MapToken.Creator stub) := total]> ∅ |}).
Proof. intros Ht Hd. unfold MapToken.Initialize. rewrite Ht, Hd. reflexivity. Qed.

Lemma MapTokenRaw_Initialize_run stub nm sym t d total decimals :
  ParseUint t 64 = (total, None) ->
  ParseUint d 8 = (decimals, None) ->
  MapTokenRaw.Initialize stub [nm; sym; t; d] =
    (MapToken.Success None,
     MapToken.PutState stub "token"
       {| MapToken.Name := nm; MapToken.Symbol := sym; MapToken.Total := total;
          MapToken.Decimals := decimals;
          MapToken.Balance := <[MapToken.Creator stub := total]> ∅ |}).
Proof. intros Ht Hd. unfold MapTokenRaw.Initialize. rewrite Ht, Hd. reflexivity. Qed.

Lemma Creator_PutState stub k token :
  MapToken.Creator (MapToken.PutState stub k token) = MapToken.Creator stub.
Proof. reflexivity. Qed.

Lemma GetState_PutState_token stub token :
  MapToken.GetState (MapToken.PutState stub "token" token) "token" = Some token.
Proof. apply tokenOf_PutState. Qed.

(** X17: a successful Initialize of the map-based chaincode, with a name
    and a symbol that are valid UTF-8, replaces the whole token record,
    whatever was stored and whoever calls: name, symbol and totalSupply then
    answer with its arguments, the caller holds the whole supply under the
    hex form of its identity, no other address has a balance entry, and no
    event is recorded. *)
Theorem X17_Initialize_resets_the_token stub nm sym t d total decimals :
  utf8.ValidString nm = true ->
  utf8.ValidString sym = true ->
  ParseUint t 64 = (total, None) ->
  ParseUint d 8 = (decimals, None) ->
  let r := MapToken.Invoke stub "Initialize" [nm; sym; t; d] in
  let holder := MapToken.EncodeToString (MapToken.Creator stub) in
  fst r = MapToken.Success None /\
  fst (MapToken.Invoke (snd r) "name" []) = MapToken.Success (Some nm) /\
  fst (MapToken.Invoke (snd r) "symbol" []) = MapToken.Success (Some sym) /\
  fst (MapToken.Invoke (snd r) "totalSupply" [])
    = MapToken.Success (Some (Itoa total)) /\
  MapToken.Invoke (snd r) "ClientAccountBalance" []
    = (MapToken.Success (Some (Itoa total)), snd r) /\
  (forall address, address <> "" -> address <> holder ->
     fst (MapToken.Invoke (snd r) "balanceOf" [address])
       = MapToken.Error ("No balance found for address: " ++ address)) /\
  MapToken.Events (snd r) = MapToken.Events stub.
Proof.
  intros _ _ Ht Hd r holder. subst r holder.
  change (MapToken.Invoke stub "Initialize" [nm; sym; t; d])
    with (MapToken.Initialize stub [nm; sym; t; d]).
  rewrite (MapToken_Initialize_run _ _ _ _ _ _ _ Ht Hd). cbn [fst snd].
  split; [reflexivity|].
  unfold MapToken.Invoke. simpl String.eqb. cbv iota.
  unfold MapToken.name, MapToken.symbol, MapToken.totalSupply,
    MapToken.ClientAccountBalance, MapToken.balanceOf.
  rewrite GetState_PutState_token. cbn [fst snd MapToken.Name MapToken.Symbol
    MapToken.Total MapToken.Balance MapToken.GetCreator].
  change (MapToken.Creator (MapToken.PutState stub "token" _))
    with (MapToken.Creator stub).
  rewrite lookup_insert_eq.
  repeat (split; [reflexivity|]). split; [|reflexivity].
  intros address Ha Hh.
  destruct (String.eqb_spec address "") as [E|_]; [contradiction|].
  rewrite lookup_insert_ne by congruence. rewrite lookup_empty. reflexivity.
Qed.

Lemma X17_Initialize_resets_the_token_witness :
  let stub := tokenLedger (gold [("41", 70); ("42", 30)] 100) "B" in
  let r := MapToken.Invoke stub "Initialize" ["Silver"; "SLV"; "500"; "0"] in
  (utf8.ValidString "Silver" = true /\ utf8.ValidString "SLV" = true) /\
  fst r = MapToken.Success None /\
  fst (MapToken.Invoke (snd r) "name" []) = MapToken.Success (Some "Silver") /\
  fst (MapToken.Invoke (snd r) "balanceOf" ["41"])
    = MapToken.Error "No balance found for address: 41".
Proof.
  destruct (X17_Initialize_resets_the_token
              (tokenLedger (gold [("41", 70); ("42", 30)] 100) "B")
              "Silver" "SLV" "500" "0" 500 0 eq_refl eq_refl eq_refl eq_refl)
    as (R1 & R2 & _ & _ & _ & R6 & _).
  split; [split; reflexivity|].
  split; [exact R1|]. split; [exact R2|].
  exact (R6 "41" ltac:(discriminate) ltac:(discriminate)).
Defined.

(** X18: in src/go/token_erc_20.go Initialize and Mint credit the hex form
    of the caller's identity, while transfer debits the identity itself.
    After Initialize by a caller with a non-empty identity, followed by a
    Mint of any argument, a transfer of a positive amount by the same caller
    fails with "Insufficient balance" and stores nothing. *)
Theorem X18_holder_cannot_transfer stub nm sym t d m receiver a amount :
  MapToken.Creator stub <> "" ->
  fst (MapToken.Initialize stub [nm; sym; t; d]) = MapToken.Success None ->
  ParseUint a 64 = (amount, None) ->
  0 < amount ->
  let s1 := snd (MapToken.Initialize stub [nm; sym; t; d]) in
  let s2 := snd (MapToken.Mint s1 [m]) in
  MapToken.transfer s2 [receiver; a] = (MapToken.Error "Insufficient balance", s2).
Proof.
  intros Hc Hi Ha Hpos s1 s2. subst s2 s1.
  pose proof (EncodeToString_differs _ Hc) as Hne.
  destruct (ParseUint t 64) as [total [e|]] eqn:Ht;
    [unfold MapToken.Initialize in Hi; rewrite Ht in Hi; discriminate|].
  destruct (ParseUint d 8) as [decimals [e|]] eqn:Hd;
    [unfold MapToken.Initialize in Hi; rewrite Ht, Hd in Hi; discriminate|].
  rewrite (MapToken_Initialize_run _ _ _ _ _ _ _ Ht Hd). cbn [snd].
  unfold MapToken.Mint.
  destruct (ParseUint m 64) as [minted [e|]]; cbn [snd].
  - unfold MapToken.transfer. rewrite Ha, GetState_PutState_token.
    unfold MapToken.balanceAt, MapToken.GetCreator. cbn.
    rewrite lookup_insert_ne by congruence. rewrite lookup_empty.
    cbn [default from_option id].
    replace (0 <? amount) with true by (symmetry; apply Z.ltb_lt; lia).
    reflexivity.
  - rewrite GetState_PutState_token. cbv zeta. cbn [snd].
    unfold MapToken.transfer. rewrite Ha.
    unfold MapToken.SetEvent, MapToken.GetState, MapToken.balanceAt,
      MapToken.GetCreator. cbn.
    rewrite lookup_insert_eq. cbn.
    rewrite !lookup_insert_ne by congruence. rewrite lookup_empty.
    cbn [default from_option id].
    replace (0 <? amount) with true by (symmetry; apply Z.ltb_lt; lia).
    reflexivity.
Qed.

Lemma X18_holder_cannot_transfer_witness :
  let stub := tokenLedger (gold [] 0) "A" in
  let s1 := snd (MapToken.Initialize stub ["Gold"; "GLD"; "100"; "2"]) in
  let s2 := snd (MapToken.Mint s1 ["50"]) in
  (MapToken.Creator stub <> "" /\ 0 < 1) /\
  fst (MapToken.ClientAccountBalance s2) = MapToken.Success (Some "150") /\
  MapToken.transfer s2 ["42"; "1"] = (MapToken.Error "Insufficient balance", s2).
Proof.
  assert (H1 : MapToken.Creator (tokenLedger (gold [] 0) "A") <> "") by discriminate.
  assert (H2 : 0 < 1) by reflexivity.
  split; [split; [exact H1 | exact H2]|]. split; [reflexivity|].
  exact (X18_holder_cannot_transfer (tokenLedger (gold [] 0) "A")
           "Gold" "GLD" "100" "2" "50" "42" "1" 1 H1 eq_refl eq_refl H2).
Defined.

Lemma MapToken_transfer_run stub token receiver a amount :
  tokenOf stub = Some token ->
  ParseUint a 64 = (amount, None) ->
  amount <= MapToken.balanceAt token (MapToken.Creator stub) ->
  let sender := MapToken.Creator stub in
  let debited := MapToken.setBalance token sender
                   (wrapU64 (MapToken.balanceAt token sender - amount)) in
  MapToken.transfer stub [receiver; a] =
    (MapToken.Success None,
     MapToken.PutState stub "token"
       (MapToken.setBalance debited receiver
          (wrapU64 (MapToken.balanceAt debited receiver + amount)))).
Proof.
  unfold tokenOf. intros Htk Ha Hle. cbv zeta.
  unfold MapToken.transfer. rewrite Ha, Htk. unfold MapToken.GetCreator.
  replace (_ <? amount) with false by (symmetry; apply Z.ltb_ge; lia).
  reflexivity.
Qed.



(** X20: once a token is stored, a second ClientAccountBalance in
    src/go/token_erc_20.go gives the answer of the first and stores nothing,
    and for a caller with a non-empty identity balanceOf on the hex form of
    that identity gives the same answer after it. *)
Theorem X20_ClientAccountBalance_settles stub token :
  tokenOf stub = Some token ->
  let r := MapToken.ClientAccountBalance stub in
  let holder := MapToken.EncodeToString (MapToken.Creator stub) in
  MapToken.ClientAccountBalance (snd r) = (fst r, snd r) /\
  (MapToken.Creator stub <> "" ->
   MapToken.balanceOf (snd r) [holder] = (fst r, snd r)).
Proof.
  intros Htk r holder. subst r holder. unfold tokenOf in Htk.
  destruct (MapToken.Balance token !! MapToken.EncodeToString (MapToken.Creator stub))
    as [balance|] eqn:Hb.
  - assert (E : MapToken.ClientAccountBalance stub
                = (MapToken.Success (Some (Itoa balance)), stub))
      by (unfold MapToken.ClientAccountBalance, MapToken.GetCreator;
          rewrite Htk, Hb; reflexivity).
    rewrite E. cbn [fst snd]. split; [exact E|].
    intros Hc. unfold MapToken.balanceOf.
    destruct (String.eqb_spec (MapToken.EncodeToString (MapToken.Creator stub)) "")
      as [E0|_]; [exfalso; exact (EncodeToString_nonempty _ Hc E0)|].
    rewrite Htk, Hb. reflexivity.
  - assert (E : MapToken.ClientAccountBalance stub
                = (MapToken.Success (Some (Itoa 0)),
                   MapToken.PutState stub "token"
                     (MapToken.setBalance token
                        (MapToken.EncodeToString (MapToken.Creator stub)) 0)))
      by (unfold MapToken.ClientAccountBalance, MapToken.GetCreator;
          rewrite Htk, Hb; reflexivity).
    rewrite E. cbn [fst snd]. split.
    + unfold MapToken.ClientAccountBalance, MapToken.GetCreator.
      rewrite GetState_PutState_token, Creator_PutState.
      unfold MapToken.setBalance at 1. cbn [MapToken.Balance].
      rewrite lookup_insert_eq. reflexivity.
    + intros Hc. unfold MapToken.balanceOf.
      destruct (String.eqb_spec (MapToken.EncodeToString (MapToken.Creator stub)) "")
        as [E0|_]; [exfalso; exact (EncodeToString_nonempty _ Hc E0)|].
      rewrite GetState_PutState_token.
      unfold MapToken.setBalance at 1. cbn [MapToken.Balance].
      rewrite lookup_insert_eq. reflexivity.
Qed.

Lemma X20_ClientAccountBalance_settles_witness :
  let stub := tokenLedger (gold [("42", 30)] 30) "A" in
  let r := MapToken.ClientAccountBalance stub in
  tokenOf stub = Some (gold [("42", 30)] 30) /\
  snd r <> stub /\
  MapToken.ClientAccountBalance (snd r) = (fst r, snd r) /\
  MapToken.balanceOf (snd r) ["41"] = (fst r, snd r).
Proof.
  destruct (X20_ClientAccountBalance_settles
              (tokenLedger (gold [("42", 30)] 30) "A") (gold [("42", 30)] 30) eq_refl)
    as (R1 & R2).
  split; [reflexivity|]. split; [discriminate|]. split; [exact R1|].
  exact (R2 ltac:(discriminate)).
Defined.

(** X21: ClientAccountBalance of src/unnamed/part_000 never stores anything;
    for a caller with a non-empty identity, when it succeeds balanceOf on
    that identity gives the same answer, and when the stored token has no
    entry for the caller it fails with "Balance not found for client ID: "
    followed by the identity. *)
Theorem X21_raw_ClientAccountBalance_reads_only stub :
  snd (MapTokenRaw.ClientAccountBalance stub) = stub /\
  (forall payload,
     fst (MapTokenRaw.ClientAccountBalance stub) = MapToken.Success payload ->
     MapToken.Creator stub <> "" ->
     MapTokenRaw.balanceOf stub [MapToken.Creator stub]
       = (MapToken.Success payload, stub)) /\
  (forall token,
     tokenOf stub = Some token ->
     MapToken.Balance token !! MapToken.Creator stub = None ->
     fst (MapTokenRaw.ClientAccountBalance stub)
       = MapToken.Error ("Balance not found for client ID: " ++ MapToken.Creator stub)).
Proof.
  unfold MapTokenRaw.ClientAccountBalance, MapTokenRaw.ClientAccountID,
    MapTokenRaw.balanceOf, MapToken.balanceOf, MapToken.GetCreator, tokenOf.
  cbn [fst default from_option id].
  split; [|split].
  - destruct (MapToken.GetState stub "token") as [token|]; [|reflexivity].
    destruct (MapToken.Balance token !! _); reflexivity.
  - intros payload Hs Hc.
    destruct (String.eqb_spec (MapToken.Creator stub) "") as [E|_]; [contradiction|].
    destruct (MapToken.GetState stub "token") as [token|]; [|discriminate Hs].
    destruct (MapToken.Balance token !! _); [|discriminate Hs].
    cbn [fst] in Hs. rewrite Hs. reflexivity.
  - intros token Htk Hb. rewrite Htk, Hb. reflexivity.
Qed.



(** X23: ClientAccountID, balanceOf, name, symbol and totalSupply of the
    map-based Invoke return the stub they were given, whatever their
    arguments and whether they succeed or fail. *)
Theorem X23_map_queries_never_write stub function args :
  In function mapQueries ->
  snd (MapToken.Invoke stub function args) = stub.
Proof.
  unfold mapQueries. cbn [In].
  intros [<- | [<- | [<- | [<- | [<- | []]]]]];
    unfold MapToken.Invoke; simpl String.eqb; cbv iota;
    unfold MapToken.ClientAccountID, MapToken.balanceOf, MapToken.name,
      MapToken.symbol, MapToken.totalSupply.
  - reflexivity.
  - destruct args as [|address [|? ?]]; try reflexivity.
    destruct (String.eqb address ""); [reflexivity|].
    destruct (MapToken.GetState stub "token") as [token|]; [|reflexivity].
    destruct (MapToken.Balance token !! address); reflexivity.
  - destruct (MapToken.GetState stub "token"); reflexivity.
  - destruct (MapToken.GetState stub "token"); reflexivity.
  - destruct (MapToken.GetState stub "token"); reflexivity.
Qed.

Lemma X23_map_queries_never_write_witness :
  let stub := tokenLedger (gold [("41", 70)] 70) "A" in
  In "balanceOf" mapQueries /\
  snd (MapToken.Invoke stub "balanceOf" ["41"]) = stub.
Proof.
  assert (H : In "balanceOf" mapQueries) by (right; left; reflexivity).
  split; [exact H|].
  exact (X23_map_queries_never_write
           (tokenLedger (gold [("41", 70)] 70) "A") "balanceOf" ["41"] H).
Defined.

(** X24: while nothing is stored under "token", every function of the
    map-based Invoke other than Initialize and ClientAccountID fails and
    stores nothing; balanceOf of a non-empty address fails with "Token state
    does not exist". *)
Theorem X24_nothing_works_before_Initialize stub function args :
  tokenOf stub = None ->
  function <> "Initialize" ->
  function <> "ClientAccountID" ->
  snd (MapToken.Invoke stub function args) = stub /\
  (forall payload,
     fst (MapToken.Invoke stub function args) <> MapToken.Success payload) /\
  (forall address, address <> "" ->
     MapToken.Invoke stub "balanceOf" [address]
       = (MapToken.Error "Token state does not exist", stub)).
Proof.
  unfold tokenOf. intros Htk Hi Hc.
  split; [|split].
  - unfold MapToken.Invoke. by_function function; try congruence;
      unfold MapToken.Mint, MapToken.ClientAccountBalance, MapToken.transfer,
        MapToken.balanceOf, MapToken.name, MapToken.symbol, MapToken.totalSupply;
      rewrite ?Htk; try reflexivity.
    + destruct args as [|a [|? ?]]; try reflexivity.
      destruct (ParseUint a 64) as [? [?|]]; [reflexivity|].
      reflexivity.
    + destruct args as [|receiver [|a [|? ?]]]; try reflexivity.
      destruct (ParseUint a 64) as [? [?|]]; [reflexivity|].
      reflexivity.
    + destruct args as [|address [|? ?]]; try reflexivity.
      destruct (String.eqb address ""); [reflexivity|].
      reflexivity.
  - intros payload. unfold MapToken.Invoke. by_function function; try congruence;
      unfold MapToken.Mint, MapToken.ClientAccountBalance, MapToken.transfer,
        MapToken.balanceOf, MapToken.name, MapToken.symbol, MapToken.totalSupply;
      rewrite ?Htk; try discriminate.
    + destruct args as [|a [|? ?]]; try discriminate.
      destruct (ParseUint a 64) as [? [?|]]; [discriminate|].
      discriminate.
    + destruct args as [|receiver [|a [|? ?]]]; try discriminate.
      destruct (ParseUint a 64) as [? [?|]]; [discriminate|].
      discriminate.
    + destruct args as [|address [|? ?]]; try discriminate.
      destruct (String.eqb address ""); [discriminate|].
      discriminate.
  - intros address Ha. unfold MapToken.Invoke. simpl String.eqb. cbv iota.
    unfold MapToken.balanceOf.
    destruct (String.eqb_spec address "") as [E|_]; [contradiction|].
    rewrite Htk. reflexivity.
Qed.

Lemma X24_nothing_works_before_Initialize_witness :
  let stub := {| MapToken.State := ∅; MapToken.Writes := [];
                 MapToken.Events := []; MapToken.Creator := "A" |} in
  tokenOf stub = None /\
  snd (MapToken.Invoke stub "Mint" ["5"]) = stub /\
  MapToken.Invoke stub "balanceOf" ["41"]
    = (MapToken.Error "Token state does not exist", stub).
Proof.
  assert (H : tokenOf {| MapToken.State := ∅; MapToken.Writes := [];
                         MapToken.Events := []; MapToken.Creator := "A" |} = None)
    by (vm_compute; reflexivity).
  destruct (X24_nothing_works_before_Initialize
              {| MapToken.State := ∅; MapToken.Writes := [];
                 MapToken.Events := []; MapToken.Creator := "A" |}
              "Mint" ["5"] H ltac:(discriminate) ltac:(discriminate))
    as (R1 & _ & R3).
  split; [exact H|]. split; [exact R1|].
  exact (R3 "41" ltac:(discriminate)).
Defined.


